(** * hooks/post_gen_project.py: the post-generation hook, embedded and verified

    The hook picks a minimum Python version (from the template placeholder,
    or from [pyenv versions --bare]), rewrites the [requires-python] line of
    [pyproject.toml] and runs [pdm use].

    Python [str] values are modelled as [string]: sequences of code points
    below 256.  On that range [\d] is [0-9], [str.isspace] and the
    [str.splitlines] boundaries are the ones listed below. *)

From Stdlib Require Import Bool Arith Lia List Ascii String ZArith.
Import ListNotations.
Open Scope string_scope.
Open Scope nat_scope.

(** ** Exceptions and results *)

Inductive exn : Type :=
| FileNotFoundError
| PermissionError
| CalledProcessError (returncode : Z)
| IndexError
| re_error
| UnicodeDecodeError
| SyntaxError.

Inductive res (A : Type) : Type :=
| Ok (a : A)
| Raise (e : exn).
Arguments Ok {A} a.
Arguments Raise {A} e.

(** ** Characters *)

Definition LF : ascii := "010"%char.
Definition CR : ascii := "013"%char.
Definition DQUOTE : ascii := "034"%char.
Definition BACKSLASH : ascii := "\"%char.

Definition code (a : ascii) : nat := nat_of_ascii a.

Definition in_range (lo hi : nat) (a : ascii) : bool :=
  (lo <=? code a) && (code a <=? hi).

(** [\d] on code points below 256. *)
Definition is_digit (a : ascii) : bool := in_range 48 57 a.

Definition is_octdigit (a : ascii) : bool := in_range 48 55 a.

Definition is_ascii_letter (a : ascii) : bool :=
  in_range 65 90 a || in_range 97 122 a.

(** [str.isspace] on code points below 256. *)
Definition is_space (a : ascii) : bool :=
  in_range 9 13 a || in_range 28 32 a || (code a =? 133) || (code a =? 160).

(** Line boundaries of [str.splitlines] on code points below 256. *)
Definition is_linebreak (a : ascii) : bool :=
  in_range 10 13 a || in_range 28 30 a || (code a =? 133).

(** ** The [str] and [list] operations the hook uses *)

(** [s.lstrip()] *)
Fixpoint lstrip (s : string) : string :=
  match s with
  | EmptyString => EmptyString
  | String a s' => if is_space a then lstrip s' else s
  end.

(** [s.rstrip()] *)
Fixpoint rstrip (s : string) : string :=
  match s with
  | EmptyString => EmptyString
  | String a s' =>
      match rstrip s' with
      | EmptyString => if is_space a then EmptyString else String a EmptyString
      | r => String a r
      end
  end.

(** [s.strip()] *)
Definition strip (s : string) : string := rstrip (lstrip s).

(** [s.splitlines()] *)
Fixpoint splitlines (s : string) : list string :=
  match s with
  | EmptyString => []
  | String a s' =>
      if is_linebreak a then
        EmptyString ::
          match s' with
          | String b s'' =>
              if Ascii.eqb a CR && Ascii.eqb b LF then splitlines s''
              else splitlines s'
          | EmptyString => []
          end
      else
        match splitlines s' with
        | [] => [String a EmptyString]
        | l :: ls => String a l :: ls
        end
  end.

(** [s.split(sep)] for a one-character separator. *)
Fixpoint str_split (sep : ascii) (s : string) : list string :=
  match s with
  | EmptyString => [EmptyString]
  | String a s' =>
      if Ascii.eqb a sep then EmptyString :: str_split sep s'
      else
        match str_split sep s' with
        | [] => [String a EmptyString]
        | l :: ls => String a l :: ls
        end
  end.

(** [sep.join(parts)] *)
Fixpoint str_join (sep : string) (parts : list string) : string :=
  match parts with
  | [] => EmptyString
  | [p] => p
  | p :: ps => p ++ sep ++ str_join sep ps
  end.

(** [xs[-1]]: raises [IndexError] on the empty list. *)
Fixpoint list_last {A : Type} (xs : list A) : res A :=
  match xs with
  | [] => Raise IndexError
  | [x] => Ok x
  | _ :: xs' => list_last xs'
  end.

(** ** Regular expressions

    The fragment of [re] the two patterns of the hook are written in:
    literal characters, [.], [\d], escaped punctuation, the postfix
    operators [*] and [+] on one character class, and the anchors [^] and
    [$].  Matching is the backtracking, greedy matching of [re]. *)

Inductive cls : Type :=
| CChar (c : ascii)
| CAny
| CDigit.

Inductive atom : Type :=
| ABol
| AEol
| AOne (c : cls)
| AStar (c : cls)
| APlus (c : cls).

Definition regex : Type := list atom.

Inductive token : Type :=
| TBol
| TEol
| TCls (c : cls)
| TStar
| TPlus.

Definition is_unsupported_meta (a : ascii) : bool :=
  existsb (Ascii.eqb a)
    ["?"; "{"; "}"; "["; "]"; "|"; "("; ")"]%char.

Definition is_alnum (a : ascii) : bool := is_ascii_letter a || is_digit a.

(** Tokens of a pattern source; [None] outside the fragment. *)
Fixpoint re_tokens (src : string) : option (list token) :=
  match src with
  | EmptyString => Some []
  | String c s1 =>
      if Ascii.eqb c BACKSLASH then
        match s1 with
        | EmptyString => None
        | String d s2 =>
            if Ascii.eqb d "d" then option_map (cons (TCls CDigit)) (re_tokens s2)
            else if is_alnum d then None
            else option_map (cons (TCls (CChar d))) (re_tokens s2)
        end
      else if Ascii.eqb c "^" then option_map (cons TBol) (re_tokens s1)
      else if Ascii.eqb c "$" then option_map (cons TEol) (re_tokens s1)
      else if Ascii.eqb c "*" then option_map (cons TStar) (re_tokens s1)
      else if Ascii.eqb c "+" then option_map (cons TPlus) (re_tokens s1)
      else if Ascii.eqb c "." then option_map (cons (TCls CAny)) (re_tokens s1)
      else if is_unsupported_meta c then None
      else option_map (cons (TCls (CChar c))) (re_tokens s1)
  end.

Fixpoint re_atoms (ts : list token) : option regex :=
  match ts with
  | [] => Some []
  | TBol :: r => option_map (cons ABol) (re_atoms r)
  | TEol :: r => option_map (cons AEol) (re_atoms r)
  | TCls c :: TStar :: r => option_map (cons (AStar c)) (re_atoms r)
  | TCls c :: TPlus :: r => option_map (cons (APlus c)) (re_atoms r)
  | TCls c :: r => option_map (cons (AOne c)) (re_atoms r)
  | TStar :: _ => None
  | TPlus :: _ => None
  end.

Definition re_parse (src : string) : option regex :=
  match re_tokens src with
  | Some ts => re_atoms ts
  | None => None
  end.

(** [re.compile(src)]; a source outside the fragment has no pattern in
    this model, which is reported as [re_error]. *)
Definition re_compile (src : string) : res regex :=
  match re_parse src with
  | Some p => Ok p
  | None => Raise re_error
  end.

Definition cls_match (c : cls) (a : ascii) : bool :=
  match c with
  | CChar x => Ascii.eqb a x
  | CAny => negb (Ascii.eqb a LF)
  | CDigit => is_digit a
  end.

(** [$] without [re.MULTILINE]: at the end, or before a final newline. *)
Definition at_eol (s : string) : bool :=
  match s with
  | EmptyString => true
  | String a EmptyString => Ascii.eqb a LF
  | _ => false
  end.

(** Greedy repetition of a class, then the continuation [k]; on failure
    of [k] one repetition is given back.  The flag tells whether the
    position is the start of the subject; the result is the length of the
    match. *)
Fixpoint star_k (c : cls) (k : bool -> string -> option nat)
    (bos : bool) (s : string) : option nat :=
  match s with
  | EmptyString => k bos s
  | String a s' =>
      if cls_match c a then
        match star_k c k false s' with
        | Some n => Some (S n)
        | None => k bos s
        end
      else k bos s
  end.

(** Length of the match of [p] at the head of [s], if there is one. *)
Fixpoint match_len (p : regex) (bos : bool) (s : string) : option nat :=
  match p with
  | [] => Some 0
  | ABol :: p' => if bos then match_len p' bos s else None
  | AEol :: p' => if at_eol s then match_len p' bos s else None
  | AOne c :: p' =>
      match s with
      | String a s' =>
          if cls_match c a then option_map S (match_len p' false s') else None
      | EmptyString => None
      end
  | AStar c :: p' => star_k c (match_len p') bos s
  | APlus c :: p' =>
      match s with
      | String a s' =>
          if cls_match c a
          then option_map S (star_k c (match_len p') false s')
          else None
      | EmptyString => None
      end
  end.

(** [pattern.match(s)], as the truth value the hook tests. *)
Definition re_match (p : regex) (s : string) : bool :=
  match match_len p true s with
  | Some _ => true
  | None => false
  end.

(** ** get_latest_installed_python_version *)

Definition version_pattern_src : string := "^3\.\d+\.\d+$".

(** [None] is Python's [None]. *)
Definition get_latest_installed_python_version
    (installed_versions : list string) : res (option string) :=
  match re_compile version_pattern_src with
  | Raise e => Raise e
  | Ok pattern =>
      let valid_installed_versions :=
        filter (re_match pattern) installed_versions in
      match valid_installed_versions with
      | _ :: _ =>
          match list_last valid_installed_versions with
          | Raise e => Raise e
          | Ok latest_installed_version =>
              let major_minor_version :=
                str_join "." (firstn 2 (str_split "." latest_installed_version)) in
              Ok (Some major_minor_version)
          end
      | [] => Ok None
      end
  end.

(** ** Replacement templates of [re.sub]

    [re.sub] reads its replacement string as a template once, before it
    scans: a string without backslash stands for itself, an escape is
    decoded, [\g<0>] stands for the whole match, and a reference to a group
    the pattern does not have is an error (neither pattern of the hook has
    a group). *)

Inductive titem : Type :=
| TLit (a : ascii)
| TGroup0.

Definition octal_value (a : ascii) : nat := code a - 48.

Definition chr (n : nat) : ascii := ascii_of_nat n.

(** The escapes for one character: [\a \b \f \n \r \t \v] and the
    backslash itself. *)
Definition template_escape (d : ascii) : option ascii :=
  if Ascii.eqb d "a" then Some (chr 7)
  else if Ascii.eqb d "b" then Some (chr 8)
  else if Ascii.eqb d "f" then Some (chr 12)
  else if Ascii.eqb d "n" then Some (chr 10)
  else if Ascii.eqb d "r" then Some (chr 13)
  else if Ascii.eqb d "t" then Some (chr 9)
  else if Ascii.eqb d "v" then Some (chr 11)
  else if Ascii.eqb d BACKSLASH then Some BACKSLASH
  else None.

Fixpoint all_chars (f : ascii -> bool) (s : string) : bool :=
  match s with
  | EmptyString => true
  | String a s' => f a && all_chars f s'
  end.

Definition is_latin1_letter (a : ascii) : bool :=
  (code a =? 170) || (code a =? 181) || (code a =? 186)
  || in_range 192 214 a || in_range 216 246 a || in_range 248 255 a.

Definition is_ident_start (a : ascii) : bool :=
  is_ascii_letter a || Ascii.eqb a "_" || is_latin1_letter a.

Definition is_ident_part (a : ascii) : bool :=
  is_ident_start a || is_digit a || (code a =? 183).

(** [name.isidentifier()] *)
Definition is_identifier (name : string) : bool :=
  match name with
  | EmptyString => false
  | String a r => is_ident_start a && all_chars is_ident_part r
  end.

(** What [\g<name>] denotes for a pattern without groups: group 0 for a
    decimal zero, an error for everything else ([IndexError] for a name
    that is an identifier).  This is how CPython 3.12 reads the name;
    older versions also take a sign or blanks around the number. *)
Definition group_ref (name : string) : res titem :=
  match name with
  | EmptyString => Raise re_error
  | _ =>
      if all_chars is_digit name then
        if all_chars (Ascii.eqb "0") name then Ok TGroup0 else Raise re_error
      else if is_identifier name then Raise IndexError
      else Raise re_error
  end.

Definition res_cons {A : Type} (x : A) (r : res (list A)) : res (list A) :=
  match r with
  | Ok l => Ok (x :: l)
  | Raise e => Raise e
  end.

Fixpoint parse_template (repl : string) : res (list titem) :=
  match repl with
  | EmptyString => Ok []
  | String c r1 =>
      if negb (Ascii.eqb c BACKSLASH) then res_cons (TLit c) (parse_template r1)
      else
        match r1 with
        | EmptyString => Raise re_error
        | String d r2 =>
            if Ascii.eqb d "g" then
              match r2 with
              | String lt r3 =>
                  if Ascii.eqb lt "<" then
                    (fix group_name (s name : string) {struct s} : res (list titem) :=
                       match s with
                       | EmptyString => Raise re_error
                       | String x s' =>
                           if Ascii.eqb x ">" then
                             match group_ref name with
                             | Ok g => res_cons g (parse_template s')
                             | Raise e => Raise e
                             end
                           else group_name s' (name ++ String x EmptyString)
                       end) r3 EmptyString
                  else Raise re_error
              | EmptyString => Raise re_error
              end
            else if Ascii.eqb d "0" then
              match r2 with
              | String e r3 =>
                  if is_octdigit e then
                    match r3 with
                    | String f r4 =>
                        if is_octdigit f then
                          res_cons (TLit (chr (8 * octal_value e + octal_value f)))
                            (parse_template r4)
                        else res_cons (TLit (chr (octal_value e))) (parse_template r3)
                    | EmptyString => Ok [TLit (chr (octal_value e))]
                    end
                  else res_cons (TLit (chr 0)) (parse_template r2)
              | EmptyString => Ok [TLit (chr 0)]
              end
            else if is_digit d then
              match r2 with
              | String e (String f r4) =>
                  if is_octdigit d && is_octdigit e && is_octdigit f then
                    let v := 64 * octal_value d + 8 * octal_value e + octal_value f in
                    if 255 <? v then Raise re_error
                    else res_cons (TLit (chr v)) (parse_template r4)
                  else Raise re_error
              | _ => Raise re_error
              end
            else
              match template_escape d with
              | Some x => res_cons (TLit x) (parse_template r2)
              | None =>
                  if is_ascii_letter d then Raise re_error
                  else res_cons (TLit BACKSLASH) (res_cons (TLit d) (parse_template r2))
              end
        end
  end.

Fixpoint expand_template (t : list titem) (matched : string) : string :=
  match t with
  | [] => EmptyString
  | TLit a :: t' => String a (expand_template t' matched)
  | TGroup0 :: t' => matched ++ expand_template t' matched
  end.

(** ** [re.sub]

    The scan replaces every non-overlapping match, leftmost first.
    [skip] counts the characters of the subject that still belong to the
    match replaced last.  A pattern that matches the empty string is
    replaced there and the scan moves on by one character. *)
Fixpoint sub_scan (p : regex) (t : list titem) (bos : bool) (skip : nat)
    (s : string) : string :=
  match s with
  | EmptyString =>
      match skip with
      | 0 =>
          match match_len p bos EmptyString with
          | Some _ => expand_template t EmptyString
          | None => EmptyString
          end
      | S _ => EmptyString
      end
  | String a s' =>
      match skip with
      | S k => sub_scan p t false k s'
      | 0 =>
          match match_len p bos s with
          | Some (S n) =>
              expand_template t (substring 0 (S n) s) ++ sub_scan p t false n s'
          | Some 0 =>
              expand_template t EmptyString ++ String a (sub_scan p t false 0 s')
          | None => String a (sub_scan p t false 0 s')
          end
      end
  end.

(** [re.sub(pattern, repl, s)] with a pattern source and a string [repl]. *)
Definition re_sub (pattern repl s : string) : res string :=
  match re_compile pattern with
  | Raise e => Raise e
  | Ok p =>
      match parse_template repl with
      | Raise e => Raise e
      | Ok t => Ok (sub_scan p t true 0 s)
      end
  end.

Definition dq : string := String DQUOTE EmptyString.

(** [r'requires-python = ".*"'] *)
Definition requires_pattern_src : string := "requires-python = " ++ dq ++ ".*" ++ dq.

(** [f'requires-python = "{python_version}"'] *)
Definition requires_line (python_version : string) : string :=
  "requires-python = " ++ dq ++ python_version ++ dq.

(** Lines 38-40: the new text of the file, from the text read. *)
Definition updated_content (python_version content : string) : res string :=
  re_sub requires_pattern_src (requires_line python_version) content.

(** ** The world outside the script *)

(** What [subprocess.run] meets.  The program cannot be started and the
    call raises an [OSError] ([FileNotFoundError] when there is no such
    program, [PermissionError] when it is not executable); or it runs and
    exits, and what it printed is text or, with [text=True], bytes the
    decoding rejects. *)
Inductive proc : Type :=
| LaunchError (e : exn)
| Undecodable (returncode : Z)
| Exited (returncode : Z) (stdout : string).

Record world : Type := {
  (** the outcome of running an argument vector *)
  exec : list string -> proc;
  (** the outcome of running a command line through the shell *)
  shell : string -> proc;
  (** what running that command line does to [pyproject.toml] *)
  shell_effect : string -> option string -> option string;
  (** the exception of [open] or [read] when the file gives no text *)
  read_error : exn;
  (** whether [pyproject.toml] can be opened for writing *)
  pyproject_writable : bool
}.

Inductive event : Type :=
| ERun (argv : list string)
| EShell (cmd : string)
| ERead (path : string)
| EWrite (path content : string)
| EPrint (line : string).

Record state : Type := {
  (** the text in [pyproject.toml], line endings as they are in the
      file; [None] when the file gives no text: it does not exist, cannot
      be opened, or does not decode *)
  pyproject_toml : option string;
  (** what the script has done so far, oldest first *)
  trace : list event
}.

(** Computations that read and change the state and may raise. *)
Definition M (A : Type) : Type := state -> res A * state.

Definition ret {A : Type} (a : A) : M A := fun st => (Ok a, st).

Definition raise {A : Type} (e : exn) : M A := fun st => (Raise e, st).

Definition bind {A B : Type} (m : M A) (f : A -> M B) : M B :=
  fun st =>
    match m st with
    | (Ok a, st') => f a st'
    | (Raise e, st') => (Raise e, st')
    end.

Notation "x <- m ;; k" := (bind m (fun x => k))
  (at level 61, m at next level, right associativity).
Notation "m ;; k" := (bind m (fun _ => k))
  (at level 61, right associativity).

Definition lift {A : Type} (r : res A) : M A := fun st => (r, st).

Definition emit (e : event) : M unit :=
  fun st => (Ok tt, {| pyproject_toml := pyproject_toml st;
                       trace := (trace st ++ [e])%list |}).

Definition print (line : string) : M unit := emit (EPrint line).

Definition pyproject_path : string := "pyproject.toml".

(** What reading in text mode makes of the line endings: a carriage
    return, with the line feed that follows it if there is one, becomes a
    line feed. *)
Fixpoint universal_newlines (s : string) : string :=
  match s with
  | EmptyString => EmptyString
  | String a r =>
      if Ascii.eqb a CR then
        String LF
          match r with
          | String b r' =>
              if Ascii.eqb b LF then universal_newlines r'
              else universal_newlines r
          | EmptyString => EmptyString
          end
      else String a (universal_newlines r)
  end.

(** [with open("pyproject.toml", "r") as f: content = f.read()] *)
Definition read_pyproject (w : world) : M string :=
  fun st =>
    match pyproject_toml st with
    | None => (Raise (read_error w), st)
    | Some content =>
        (Ok (universal_newlines content),
         {| pyproject_toml := pyproject_toml st;
            trace := (trace st ++ [ERead pyproject_path])%list |})
    end.

(** [with open("pyproject.toml", "w") as f: f.write(text)]; the line
    separator of the system is the line feed, so the text is stored as it
    is written. *)
Definition write_pyproject (w : world) (text : string) : M unit :=
  fun st =>
    if pyproject_writable w then
      (Ok tt, {| pyproject_toml := Some text;
                 trace := (trace st ++ [EWrite pyproject_path text])%list |})
    else (Raise PermissionError, st).

(** [subprocess.run(argv, stdout=PIPE, stderr=PIPE, text=True)] *)
Definition subprocess_run (w : world) (argv : list string) : M (Z * string) :=
  emit (ERun argv) ;;
  match exec w argv with
  | LaunchError e => raise e
  | Undecodable _ => raise UnicodeDecodeError
  | Exited returncode stdout => ret (returncode, stdout)
  end.

(** The command line has run: [pyproject.toml] is what it left. *)
Definition shell_ran (w : world) (cmd : string) : M unit :=
  fun st => (Ok tt, {| pyproject_toml := shell_effect w cmd (pyproject_toml st);
                       trace := trace st |}).

Definition check_returncode (returncode : Z) : M unit :=
  if (returncode =? 0)%Z then ret tt
  else raise (CalledProcessError returncode).

(** [subprocess.run(cmd, shell=True, check=True)]: nothing is captured,
    so nothing is decoded. *)
Definition subprocess_run_shell_check (w : world) (cmd : string) : M unit :=
  emit (EShell cmd) ;;
  match shell w cmd with
  | LaunchError e => raise e
  | Undecodable returncode => shell_ran w cmd ;; check_returncode returncode
  | Exited returncode _ => shell_ran w cmd ;; check_returncode returncode
  end.

(** ** The functions of the hook *)

Definition pyenv_versions_argv : list string := ["pyenv"; "versions"; "--bare"].

Definition get_installed_python_versions (w : world) : M (list string) :=
  result <- subprocess_run w pyenv_versions_argv ;;
  let '(returncode, stdout) := result in
  if negb (returncode =? 0)%Z then ret []
  else
    let versions := splitlines (strip stdout) in
    ret versions.

Definition update_pyproject_toml (w : world) (python_version : string) : M unit :=
  content <- read_pyproject w ;;
  updated <- lift (updated_content python_version content) ;;
  write_pyproject w updated.

(** The truth value of an optional string: [None] and the empty string
    are false. *)
Definition truthy (v : option string) : bool :=
  match v with
  | None => false
  | Some EmptyString => false
  | Some _ => true
  end.

Definition str_of (v : option string) : string :=
  match v with
  | Some s => s
  | None => "None"
  end.

Definition default_min_python : string := ">=3.8".

Definition warning_line : string :=
  "Warning: Could not determine latest Python version. Using default.".

(** ** The string literal of line 48

    The template engine pastes the placeholder text between the double
    quotes of line 48, and the interpreter reads the result as a string
    literal: escapes are decoded, and a line feed, a carriage return, a
    backslash at the very end or a malformed [\x] make the source
    a syntax error.  The text is pasted into the comment of line 62 as
    well, which a line end in the text breaks in two. *)
Inductive literal : Type :=
| LitValue (s : string)
| LitSyntaxError
| LitOther.

Definition lit_cons (a : ascii) (l : literal) : literal :=
  match l with
  | LitValue s => LitValue (String a s)
  | _ => l
  end.

Definition is_hexdigit (a : ascii) : bool :=
  is_digit a || in_range 65 70 a || in_range 97 102 a.

Definition hex_value (a : ascii) : nat :=
  if is_digit a then code a - 48
  else if in_range 65 70 a then code a - 55
  else code a - 87.

(** The escapes of one character in a string literal. *)
Definition literal_escape (d : ascii) : option ascii :=
  if Ascii.eqb d BACKSLASH then Some BACKSLASH
  else if Ascii.eqb d "'" then Some "'"%char
  else if Ascii.eqb d DQUOTE then Some DQUOTE
  else if Ascii.eqb d "a" then Some (chr 7)
  else if Ascii.eqb d "b" then Some (chr 8)
  else if Ascii.eqb d "f" then Some (chr 12)
  else if Ascii.eqb d "n" then Some (chr 10)
  else if Ascii.eqb d "r" then Some (chr 13)
  else if Ascii.eqb d "t" then Some (chr 9)
  else if Ascii.eqb d "v" then Some (chr 11)
  else None.

(** The value of the literal with [text] between its quotes.
    [LitOther]: the text does not stay one literal of this model: it
    holds a double quote that is not escaped (what follows is code), a
    line end after a backslash (the literal goes on, but what follows the
    line end in the comment of line 62 is code), a NUL, an escape [\N],
    [\u] or [\U], or an octal escape above 255. *)
Fixpoint py_literal (text : string) : literal :=
  match text with
  | EmptyString => LitValue EmptyString
  | String c r =>
      if Ascii.eqb c DQUOTE then LitOther
      else if Ascii.eqb c (chr 0) then LitOther
      else if Ascii.eqb c LF || Ascii.eqb c CR then LitSyntaxError
      else if negb (Ascii.eqb c BACKSLASH) then lit_cons c (py_literal r)
      else
        match r with
        | EmptyString => LitSyntaxError
        | String d r2 =>
            if Ascii.eqb d LF || Ascii.eqb d CR then LitOther
            else if Ascii.eqb d (chr 0) then LitOther
            else if is_octdigit d then
              match r2 with
              | String e r3 =>
                  if is_octdigit e then
                    match r3 with
                    | String f r4 =>
                        if is_octdigit f then
                          let v := 64 * octal_value d + 8 * octal_value e
                                   + octal_value f in
                          if 255 <? v then LitOther
                          else lit_cons (chr v) (py_literal r4)
                        else lit_cons (chr (8 * octal_value d + octal_value e))
                               (py_literal r3)
                    | EmptyString =>
                        LitValue (String (chr (8 * octal_value d + octal_value e))
                                    EmptyString)
                    end
                  else lit_cons (chr (octal_value d)) (py_literal r2)
              | EmptyString => LitValue (String (chr (octal_value d)) EmptyString)
              end
            else if Ascii.eqb d "x" then
              match r2 with
              | String e (String f r4) =>
                  if is_hexdigit e && is_hexdigit f
                  then lit_cons (chr (16 * hex_value e + hex_value f)) (py_literal r4)
                  else LitSyntaxError
              | _ => LitSyntaxError
              end
            else if Ascii.eqb d "N" || Ascii.eqb d "u" || Ascii.eqb d "U"
            then LitOther
            else
              match literal_escape d with
              | Some x => lit_cons x (py_literal r2)
              | None => lit_cons BACKSLASH (lit_cons d (py_literal r2))
              end
        end
  end.

(** Lines 48-59 of [main]: the minimum version the rest of the run uses.
    [placeholder] is the value of the string literal of line 48. *)
Definition resolve_min_python (w : world) (placeholder : string) : M string :=
  let min_python := placeholder in
  if negb (truthy (Some (strip min_python))) then
    installed_versions <- get_installed_python_versions w ;;
    latest_version <- lift (get_latest_installed_python_version installed_versions) ;;
    if truthy latest_version then
      let min_python := ">=" ++ str_of latest_version in
      print ("Using latest installed Python version: " ++ min_python) ;;
      update_pyproject_toml w min_python ;;
      ret min_python
    else
      print warning_line ;;
      let min_python := default_min_python in
      update_pyproject_toml w min_python ;;
      ret min_python
  else ret min_python.

Definition pdm_use_cmd (min_python : string) : string :=
  "pdm use $(pyenv prefix " ++ min_python ++ ")/bin/python".

Definition main (w : world) (placeholder : string) : M unit :=
  min_python <- resolve_min_python w placeholder ;;
  subprocess_run_shell_check w (pdm_use_cmd min_python) ;;
  print ("Using Python version specified in pyproject.toml: " ++ min_python) ;;
  print "Project setup complete!".

(** The script for a placeholder text: [main] with the value of the
    literal, or the syntax error that keeps the script from running;
    nothing when the text does not stay one literal of this model. *)
Definition hook (w : world) (placeholder_text : string) : option (M unit) :=
  match py_literal placeholder_text with
  | LitValue min_python => Some (main w min_python)
  | LitSyntaxError => Some (raise SyntaxError)
  | LitOther => None
  end.

(** The exit status of the interpreter: 1 when an exception reaches the
    top level. *)
Definition exit_status {A : Type} (r : res A) : Z :=
  match r with
  | Ok _ => 0%Z
  | Raise _ => 1%Z
  end.

Definition initial (content : option string) : state :=
  {| pyproject_toml := content; trace := [] |}.

Definition nl : string := String LF EmptyString.

(** A world in which every argument vector meets [p], the shell succeeds
    and leaves the file alone, a file without text is a missing file, and
    the file can be written. *)
Definition sample_world (p : proc) : world :=
  {| exec := fun _ => p;
     shell := fun _ => Exited 0 EmptyString;
     shell_effect := fun _ file => file;
     read_error := FileNotFoundError;
     pyproject_writable := true |}.

(** The same world with a shell that exits with [returncode]. *)
Definition failing_shell_world (p : proc) (returncode : Z) : world :=
  {| exec := fun _ => p;
     shell := fun _ => Exited returncode EmptyString;
     shell_effect := fun _ file => file;
     read_error := FileNotFoundError;
     pyproject_writable := true |}.

(** No carriage return in [s]. *)
Definition no_cr (s : string) : bool :=
  all_chars (fun a => negb (Ascii.eqb a CR)) s.

(** No double quote in [s]. *)
Definition no_dquote (s : string) : bool :=
  all_chars (fun a => negb (Ascii.eqb a DQUOTE)) s.

Definition sample_toml : string :=
  "[project]" ++ nl ++ "name = " ++ dq ++ "x" ++ dq ++ nl
  ++ requires_line ">=3.7" ++ nl ++ "license = {text = " ++ dq ++ "MIT" ++ dq ++ "}" ++ nl.

(** The two patterns, compiled. *)
Definition version_pattern : regex :=
  [ABol; AOne (CChar "3"); AOne (CChar "."); APlus CDigit;
   AOne (CChar "."); APlus CDigit; AEol].

Definition requires_prefix : string := "requires-python = " ++ dq.

Fixpoint lits (s : string) : regex :=
  match s with
  | EmptyString => []
  | String a s' => AOne (CChar a) :: lits s'
  end.

Definition requires_pattern : regex :=
  (lits requires_prefix ++ [AStar CAny; AOne (CChar DQUOTE)])%list.

(** [pattern.search(s)], as a truth value: a match at some position. *)
Fixpoint re_search_from (p : regex) (bos : bool) (s : string) : bool :=
  match match_len p bos s with
  | Some _ => true
  | None =>
      match s with
      | EmptyString => false
      | String _ s' => re_search_from p false s'
      end
  end.

Definition re_search (p : regex) (s : string) : bool := re_search_from p true s.

(** ** Strings: prefixes, suffixes, lines *)

Fixpoint take (n : nat) (s : string) : string :=
  match n, s with
  | S n', String a s' => String a (take n' s')
  | _, _ => EmptyString
  end.

Fixpoint drop (n : nat) (s : string) : string :=
  match n, s with
  | S n', String _ s' => drop n' s'
  | _, _ => s
  end.

Fixpoint strip_prefix (p s : string) : option string :=
  match p with
  | EmptyString => Some s
  | String a p' =>
      match s with
      | String b s' => if Ascii.eqb b a then strip_prefix p' s' else None
      | EmptyString => None
      end
  end.

Definition not_char (c : ascii) (a : ascii) : bool := negb (Ascii.eqb a c).

(** No line feed in [s]. *)
Definition no_lf (s : string) : bool := all_chars (not_char LF) s.

(** No backslash in [s]. *)
Definition no_backslash (s : string) : bool := all_chars (not_char BACKSLASH) s.

(** The text before the first line feed, and the text after it. *)
Fixpoint line_head (s : string) : string :=
  match s with
  | EmptyString => EmptyString
  | String a s' => if Ascii.eqb a LF then EmptyString else String a (line_head s')
  end.

Fixpoint line_tail (s : string) : option string :=
  match s with
  | EmptyString => None
  | String a s' => if Ascii.eqb a LF then Some s' else line_tail s'
  end.

Fixpoint count_char (c : ascii) (s : string) : nat :=
  match s with
  | EmptyString => 0
  | String a s' => (if Ascii.eqb a c then 1 else 0) + count_char c s'
  end.

(** The template of a replacement string without backslash. *)
Fixpoint tlits (s : string) : list titem :=
  match s with
  | EmptyString => []
  | String a s' => TLit a :: tlits s'
  end.

(** The template of [f'requires-python = "{python_version}"'] for a
    version without backslash. *)
Definition requires_template (python_version : string) : list titem :=
  tlits (requires_line python_version).

(** The scan of [re.sub] for the [requires-python] pattern. *)
Definition rsub (t : list titem) (s : string) : string :=
  sub_scan requires_pattern t true 0 s.

(** The patch applied to one line on its own. *)
Definition line_sub (python_version line : string) : string :=
  match updated_content python_version line with
  | Ok line' => line'
  | Raise _ => line
  end.

(** Replacing the first occurrence only, as [re.sub] does with [count=1]:
    the reading of the patch that stops after one replacement. *)
Fixpoint sub_first (p : regex) (t : list titem) (bos : bool) (s : string) : string :=
  match match_len p bos s with
  | Some n => expand_template t (take n s) ++ drop n s
  | None =>
      match s with
      | EmptyString => EmptyString
      | String a s' => String a (sub_first p t false s')
      end
  end.

Definition updated_content_first (python_version content : string) : res string :=
  match re_compile requires_pattern_src with
  | Raise e => Raise e
  | Ok p =>
      match parse_template (requires_line python_version) with
      | Raise e => Raise e
      | Ok t => Ok (sub_first p t true content)
      end
  end.

Definition is_print (e : event) : bool :=
  match e with
  | EPrint _ => true
  | _ => false
  end.

(** The state once the file has been read, and once [pyenv] has been run. *)
Definition after_read (st : state) : state :=
  {| pyproject_toml := pyproject_toml st;
     trace := (trace st ++ [ERead pyproject_path])%list |}.

Definition after_run (st : state) : state :=
  {| pyproject_toml := pyproject_toml st;
     trace := (trace st ++ [ERun pyenv_versions_argv])%list |}.

(** The shape of a string the version pattern matches. *)
Definition digits (s : string) : Prop :=
  s <> EmptyString /\ all_chars is_digit s = true.

(** Where the greedy repetition and the closing quote end: one past the
    last double quote before the next line feed. *)
Fixpoint quote_end (t : string) : option nat :=
  match t with
  | EmptyString => None
  | String a t' =>
      if Ascii.eqb a LF then None
      else
        match quote_end t' with
        | Some n => Some (S n)
        | None => if Ascii.eqb a DQUOTE then Some 1 else None
        end
  end.

(** The match of the pattern at the head of [s], in closed form. *)
Definition req_match (s : string) : option nat :=
  match strip_prefix requires_prefix s with
  | Some t => option_map (Nat.add (String.length requires_prefix)) (quote_end t)
  | None => None
  end.

(** Two lines that both carry the assignment. *)
Definition two_assignments : string :=
  requires_line "a" ++ nl ++ requires_line "b".

(** A version that carries a quote, a line feed and the assignment
    prefix. *)
Definition splitting_version : string := dq ++ nl ++ "requires-python = " ++ dq.

(** No line boundary of [str.splitlines] in [s]. *)
Definition no_linebreak (s : string) : bool :=
  all_chars (fun a => negb (is_linebreak a)) s.

(** No white space in [s]. *)
Definition no_space (s : string) : bool :=
  all_chars (fun a => negb (is_space a)) s.

Definition is_shell (e : event) : bool :=
  match e with
  | EShell _ => true
  | _ => false
  end.

(** What a patch for [python_version] makes of the file: nothing when
    the file is missing or cannot be written. *)
Definition patch_file (w : world) (python_version : string)
    (file : option string) : option string :=
  match file with
  | Some c =>
      if pyproject_writable w
      then Some (rsub (requires_template python_version) (universal_newlines c))
      else Some c
  | None => None
  end.

(** ** Runs of the functions on sample inputs *)

Example latest_scenario_1 :
  get_latest_installed_python_version ["3.9.1"; "3.10.4"; "3.11.0"]
  = Ok (Some "3.11").
Proof. reflexivity. Qed.

Example latest_scenario_3 :
  get_latest_installed_python_version ["2.7.18"; "3.6.9"] = Ok (Some "3.6").
Proof. reflexivity. Qed.

Example latest_not_max :
  get_latest_installed_python_version ["3.11.0"; "3.9.1"] = Ok (Some "3.9").
Proof. reflexivity. Qed.

Example splitlines_ex :
  splitlines (strip (String LF ("3.9.1" ++ String CR (String LF ("3.10.4" ++ String LF EmptyString)))))
  = ["3.9.1"; "3.10.4"].
Proof. reflexivity. Qed.

(** ** Lemmas on strings *)

Lemma app_nil_r_s (s : string) : s ++ EmptyString = s.
Proof. induction s; simpl; congruence. Qed.

Lemma app_assoc_s (a b c : string) : (a ++ b) ++ c = a ++ b ++ c.
Proof. induction a; simpl; congruence. Qed.

Lemma length_app_s (a b : string) :
  String.length (a ++ b) = String.length a + String.length b.
Proof. induction a; simpl; congruence. Qed.

Lemma all_chars_app f (a b : string) :
  all_chars f (a ++ b) = all_chars f a && all_chars f b.
Proof.
  induction a as [|x a IH]; simpl; [reflexivity|].
  rewrite IH. now rewrite andb_assoc.
Qed.

Lemma all_chars_impl (f g : ascii -> bool) (s : string) :
  (forall a, f a = true -> g a = true) ->
  all_chars f s = true -> all_chars g s = true.
Proof.
  intros Hfg. induction s as [|x s IH]; simpl; [reflexivity|].
  intros H. apply andb_true_iff in H as [Hx Hs].
  rewrite (Hfg _ Hx). now apply IH.
Qed.

Lemma take_drop (n : nat) (s : string) : take n s ++ drop n s = s.
Proof.
  revert s. induction n as [|n IH]; intros [|a s]; simpl; try reflexivity.
  now rewrite IH.
Qed.

Lemma take_cons (n : nat) (a : ascii) (s : string) :
  take (S n) (String a s) = String a (take n s).
Proof. reflexivity. Qed.

Lemma substring_0 (n : nat) (s : string) : substring 0 n s = take n s.
Proof.
  revert s. induction n as [|n IH]; intros [|a s]; simpl; try reflexivity.
  now rewrite IH.
Qed.

Lemma take_app_le (n : nat) (a b : string) :
  n <= String.length a -> take n (a ++ b) = take n a.
Proof.
  revert a. induction n as [|n IH]; intros [|x a] H; simpl in *; try reflexivity.
  - lia.
  - rewrite IH; [reflexivity | lia].
Qed.

Lemma drop_app_length (a b : string) : drop (String.length a) (a ++ b) = b.
Proof. induction a; simpl; [now destruct b | assumption]. Qed.

Lemma take_app_length (a b : string) : take (String.length a) (a ++ b) = a.
Proof. induction a; simpl; [now destruct b | congruence]. Qed.

Lemma strip_prefix_app (p s t : string) :
  strip_prefix p s = Some t -> s = p ++ t.
Proof.
  revert s. induction p as [|a p IH]; intros s H; simpl in *.
  - congruence.
  - destruct s as [|b s]; [discriminate|].
    destruct (Ascii.eqb_spec b a) as [->|]; [|discriminate].
    now rewrite (IH _ H).
Qed.

Lemma strip_prefix_app_same (p t : string) : strip_prefix p (p ++ t) = Some t.
Proof.
  induction p as [|a p IH]; simpl; [reflexivity|].
  now rewrite Ascii.eqb_refl.
Qed.

Lemma strip_prefix_take (p s : string) :
  strip_prefix p s = None <-> strip_prefix p (take (String.length p) s) = None.
Proof.
  revert s. induction p as [|a p IH]; intros s; simpl.
  - split; discriminate.
  - destruct s as [|b s]; simpl; [tauto|].
    destruct (Ascii.eqb b a); [apply IH | tauto].
Qed.

Lemma line_split (s : string) :
  s = line_head s ++ match line_tail s with
                     | Some r => String LF r
                     | None => EmptyString
                     end.
Proof.
  induction s as [|a s IH]; simpl; [reflexivity|].
  destruct (Ascii.eqb_spec a LF) as [->|]; simpl; [reflexivity|].
  now rewrite <- IH.
Qed.

Lemma no_lf_line_head (s : string) : no_lf (line_head s) = true.
Proof.
  induction s as [|a s IH]; simpl; [reflexivity|].
  destruct (Ascii.eqb a LF) eqn:E; simpl; [reflexivity|].
  unfold no_lf in *. simpl. unfold not_char at 1. now rewrite E, IH.
Qed.

Lemma line_head_app (x y : string) :
  no_lf x = true -> line_head (x ++ String LF y) = x.
Proof.
  induction x as [|a x IH]; simpl; intros H.
  - reflexivity.
  - apply andb_true_iff in H as [Ha Hx]. unfold not_char in Ha.
    apply negb_true_iff in Ha. rewrite Ha. now rewrite (IH Hx).
Qed.

Lemma line_tail_app (x y : string) :
  no_lf x = true -> line_tail (x ++ String LF y) = Some y.
Proof.
  induction x as [|a x IH]; simpl; intros H.
  - reflexivity.
  - apply andb_true_iff in H as [Ha Hx]. unfold not_char in Ha.
    apply negb_true_iff in Ha. rewrite Ha. now apply IH.
Qed.

Lemma line_head_no_lf (x : string) : no_lf x = true -> line_head x = x.
Proof.
  induction x as [|a x IH]; simpl; intros H; [reflexivity|].
  apply andb_true_iff in H as [Ha Hx]. unfold not_char in Ha.
  apply negb_true_iff in Ha. rewrite Ha. now rewrite (IH Hx).
Qed.

Lemma line_tail_no_lf (x : string) : no_lf x = true -> line_tail x = None.
Proof.
  induction x as [|a x IH]; simpl; intros H; [reflexivity|].
  apply andb_true_iff in H as [Ha Hx]. unfold not_char in Ha.
  apply negb_true_iff in Ha. rewrite Ha. now apply IH.
Qed.

Lemma line_tail_length (s r : string) :
  line_tail s = Some r -> String.length r < String.length s.
Proof.
  revert r. induction s as [|a s IH]; simpl; intros r H; [discriminate|].
  destruct (Ascii.eqb a LF).
  - injection H as <-. lia.
  - specialize (IH _ H). lia.
Qed.

Lemma str_split_lines (s : string) :
  str_split LF s
  = (line_head s :: match line_tail s with
                    | Some r => str_split LF r
                    | None => []
                    end)%list.
Proof.
  induction s as [|a s IH]; simpl; [reflexivity|].
  destruct (Ascii.eqb a LF); [reflexivity|].
  now rewrite IH.
Qed.

Lemma str_split_app (sep : ascii) (x r : string) :
  all_chars (not_char sep) x = true ->
  str_split sep (x ++ String sep r) = (x :: str_split sep r)%list.
Proof.
  induction x as [|a x IH]; simpl; intros H.
  - now rewrite Ascii.eqb_refl.
  - apply andb_true_iff in H as [Ha Hx]. unfold not_char in Ha.
    apply negb_true_iff in Ha. rewrite Ha. now rewrite (IH Hx).
Qed.

Lemma str_join_cons (sep x : string) (ys : list string) :
  ys <> [] -> str_join sep (x :: ys) = x ++ sep ++ str_join sep ys.
Proof. destruct ys; [congruence | reflexivity]. Qed.

Lemma str_split_nonempty (sep : ascii) (s : string) : str_split sep s <> [].
Proof.
  destruct s as [|a s]; simpl; [discriminate|].
  destruct (Ascii.eqb a sep); [discriminate|].
  destruct (str_split sep s); discriminate.
Qed.

(** ** Lemmas on matching *)

Lemma version_pattern_compiled : re_compile version_pattern_src = Ok version_pattern.
Proof. reflexivity. Qed.

Lemma requires_pattern_compiled :
  re_compile requires_pattern_src = Ok requires_pattern.
Proof. reflexivity. Qed.

Section Star.
Variable c : cls.
Variable k : bool -> string -> option nat.

(** A successful repetition splits the subject into the repeated
    characters and the part the continuation matched. *)
Lemma star_k_split (bos : bool) (s : string) (n : nat) :
  star_k c k bos s = Some n ->
  exists x y b m,
    s = x ++ y /\ all_chars (cls_match c) x = true /\ k b y = Some m
    /\ n = String.length x + m.
Proof.
  revert bos n. induction s as [|a s IH]; intros bos n H; simpl in H.
  - exists EmptyString, EmptyString, bos, n. auto.
  - destruct (cls_match c a) eqn:Ea.
    + destruct (star_k c k false s) as [n'|] eqn:Es.
      * injection H as <-.
        destruct (IH _ _ Es) as (x & y & b & m & -> & Hx & Hk & ->).
        exists (String a x), y, b, m. simpl. rewrite Ea, Hx. auto.
      * exists EmptyString, (String a s), bos, n. auto.
    + exists EmptyString, (String a s), bos, n. auto.
Qed.
End Star.

Lemma at_eol_inv (s : string) : at_eol s = true -> s = EmptyString \/ s = nl.
Proof.
  destruct s as [|a [|b s]]; simpl; intros H; auto; [|discriminate].
  right. apply Ascii.eqb_eq in H. now subst.
Qed.

Lemma plus_split (c : cls) (p : regex) (bos : bool) (s : string) (n : nat) :
  match_len (APlus c :: p) bos s = Some n ->
  exists x y b m,
    s = x ++ y /\ x <> EmptyString /\ all_chars (cls_match c) x = true
    /\ match_len p b y = Some m.
Proof.
  simpl. destruct s as [|a s]; [discriminate|].
  destruct (cls_match c a) eqn:Ea; [|discriminate].
  destruct (star_k c (match_len p) false s) as [n'|] eqn:Es; [|discriminate].
  intros _. destruct (star_k_split _ _ _ _ _ Es) as (x & y & b & m & -> & Hx & Hk & _).
  exists (String a x), y, b, m. simpl. rewrite Ea, Hx.
  repeat split; auto; discriminate.
Qed.

Lemma one_split (a : ascii) (p : regex) (bos : bool) (s : string) (n : nat) :
  match_len (AOne (CChar a) :: p) bos s = Some n ->
  exists y m, s = String a y /\ match_len p false y = Some m.
Proof.
  simpl. destruct s as [|b s]; [discriminate|].
  destruct (Ascii.eqb_spec b a) as [->|]; [|discriminate].
  destruct (match_len p false s) as [m|] eqn:E; [|discriminate].
  intros _. now exists s, m.
Qed.

Lemma version_match_shape (v : string) :
  re_match version_pattern v = true ->
  exists d1 d2 e,
    v = "3." ++ d1 ++ "." ++ d2 ++ e /\ digits d1 /\ digits d2
    /\ (e = EmptyString \/ e = nl).
Proof.
  unfold re_match, version_pattern.
  destruct (match_len _ true v) as [n|] eqn:E; [intros _ | discriminate].
  cbn [match_len] in E.
  change (match_len (AOne (CChar "3") :: AOne (CChar ".") :: APlus CDigit
            :: AOne (CChar ".") :: APlus CDigit :: [AEol]) true v = Some n) in E.
  apply one_split in E as (v1 & n1 & -> & E).
  apply one_split in E as (v2 & n2 & -> & E).
  apply plus_split in E as (d1 & v3 & b3 & n3 & -> & Hd1 & Hall1 & E).
  apply one_split in E as (v4 & n4 & -> & E).
  apply plus_split in E as (d2 & e & b5 & n5 & -> & Hd2 & Hall2 & E).
  simpl in E. destruct (at_eol e) eqn:He; [|discriminate].
  exists d1, d2, e. repeat split; auto using at_eol_inv.
Qed.

Lemma digit_not_dot (a : ascii) : is_digit a = true -> not_char "." a = true.
Proof.
  intros H. unfold not_char. destruct (Ascii.eqb_spec a ".") as [->|]; auto.
Qed.

(** The first two dot-separated components of a matching string. *)
Lemma major_minor_of_shape (d1 rest : string) :
  all_chars is_digit d1 = true ->
  str_join "." (firstn 2 (str_split "." ("3." ++ d1 ++ "." ++ rest))) = "3." ++ d1.
Proof.
  intros H. change ("3." ++ d1 ++ "." ++ rest) with ("3" ++ String "." (d1 ++ String "." rest)).
  rewrite str_split_app by reflexivity.
  rewrite str_split_app by (eapply all_chars_impl; [apply digit_not_dot | exact H]).
  reflexivity.
Qed.

(** ** Lemmas on lists *)

Lemma list_last_filter {A : Type} (f : A -> bool) (l : list A) :
  filter f l <> [] ->
  exists pre v post,
    l = (pre ++ v :: post)%list /\ f v = true
    /\ (forall x, In x post -> f x = false)
    /\ list_last (filter f l) = Ok v.
Proof.
  induction l as [|a l IH]; simpl; [congruence|].
  destruct (filter f l) as [|y ys] eqn:El.
  - destruct (f a) eqn:Ea; [intros _ | congruence].
    exists [], a, l. repeat split; auto.
    intros x Hx. destruct (f x) eqn:Ex; auto.
    assert (In x (filter f l)) by (apply filter_In; auto).
    rewrite El in *. contradiction.
  - intros _. destruct IH as (pre & v & post & -> & Hv & Hpost & Hlast); [discriminate|].
    exists (a :: pre)%list, v, post. repeat split; auto.
    destruct (f a); auto.
Qed.

Lemma filter_none {A : Type} (f : A -> bool) (l : list A) :
  (forall x, In x l -> f x = false) -> filter f l = [].
Proof.
  induction l as [|a l IH]; simpl; intros H; [reflexivity|].
  rewrite (H a) by auto. apply IH. auto.
Qed.

Lemma latest_unfold (l : list string) :
  get_latest_installed_python_version l
  = match filter (re_match version_pattern) l with
    | [] => Ok None
    | (_ :: _)%list as valid =>
        match list_last valid with
        | Raise e => Raise e
        | Ok latest =>
            Ok (Some (str_join "." (firstn 2 (str_split "." latest))))
        end
    end.
Proof.
  unfold get_latest_installed_python_version.
  rewrite version_pattern_compiled.
  destruct (filter _ l); reflexivity.
Qed.

(** ** The [requires-python] pattern *)

Lemma match_len_lits (P : string) (q : regex) (bos : bool) (s : string) :
  match_len (lits P ++ q)%list bos s
  = match strip_prefix P s with
    | Some t =>
        option_map (Nat.add (String.length P))
          (match_len q (bos && match P with EmptyString => true | _ => false end) t)
    | None => None
    end.
Proof.
  revert bos s. induction P as [|a P IH]; intros bos s; simpl.
  - rewrite andb_true_r. now destruct (match_len q bos s).
  - destruct s as [|b s]; [reflexivity|].
    destruct (Ascii.eqb b a); [|reflexivity].
    rewrite IH. rewrite andb_false_r. simpl.
    destruct (strip_prefix P s); [|reflexivity].
    now destruct (match_len q false s0).
Qed.

Lemma star_quote_end (bos : bool) (t : string) :
  star_k CAny (match_len [AOne (CChar DQUOTE)]) bos t = quote_end t.
Proof.
  revert bos. induction t as [|a t IH]; intros bos; simpl; [reflexivity|].
  destruct (Ascii.eqb_spec a LF) as [->|Hne]; simpl; [reflexivity|].
  rewrite IH. destruct (quote_end t); [reflexivity|].
  now destruct (Ascii.eqb a DQUOTE).
Qed.

Lemma match_len_requires (bos : bool) (s : string) :
  match_len requires_pattern bos s = req_match s.
Proof.
  unfold requires_pattern, req_match. rewrite match_len_lits.
  destruct (strip_prefix requires_prefix s); [|reflexivity].
  cbn [match_len]. now rewrite star_quote_end.
Qed.

Lemma quote_end_pos (t : string) (n : nat) : quote_end t = Some n -> 0 < n.
Proof.
  destruct t as [|a t]; simpl; [discriminate|].
  destruct (Ascii.eqb a LF); [discriminate|].
  destruct (quote_end t); [|destruct (Ascii.eqb a DQUOTE)];
    intros H; inversion H; lia.
Qed.

Lemma quote_end_le (t : string) (n : nat) :
  quote_end t = Some n -> n <= String.length (line_head t).
Proof.
  revert n. induction t as [|a t IH]; simpl; intros n; [discriminate|].
  destruct (Ascii.eqb a LF); [discriminate|].
  destruct (quote_end t) as [m|].
  - intros H. injection H as <-. specialize (IH _ eq_refl). simpl. lia.
  - destruct (Ascii.eqb a DQUOTE); [|discriminate].
    intros H. injection H as <-. simpl. lia.
Qed.

Lemma quote_end_line_head (t : string) : quote_end (line_head t) = quote_end t.
Proof.
  induction t as [|a t IH]; simpl; [reflexivity|].
  destruct (Ascii.eqb a LF) eqn:E; simpl; [reflexivity|].
  now rewrite E, IH.
Qed.

(** The match ends at a quote; no quote follows it on the line. *)
Lemma quote_end_spec (t : string) (n : nat) :
  quote_end t = Some n ->
  exists x y,
    t = x ++ dq ++ y /\ n = S (String.length x) /\ no_lf x = true
    /\ quote_end y = None.
Proof.
  revert n. induction t as [|a t IH]; simpl; intros n; [discriminate|].
  destruct (Ascii.eqb a LF) eqn:Ea; [discriminate|].
  destruct (quote_end t) as [m|] eqn:Et.
  - intros H. injection H as <-.
    destruct (IH _ eq_refl) as (x & y & -> & -> & Hx & Hy).
    exists (String a x), y. repeat split; auto.
    unfold no_lf in *. simpl. unfold not_char at 1. now rewrite Ea, Hx.
  - destruct (Ascii.eqb_spec a DQUOTE) as [->|]; [|discriminate].
    intros H. injection H as <-. exists EmptyString, t. auto.
Qed.

Lemma quote_end_app (x y : string) :
  no_lf x = true -> quote_end y = None ->
  quote_end (x ++ dq ++ y) = Some (S (String.length x)).
Proof.
  intros Hx Hy. change (dq ++ y) with (String DQUOTE y).
  induction x as [|a x IH]; simpl.
  - now rewrite Hy.
  - apply andb_true_iff in Hx as [Ha Hx]. unfold not_char in Ha.
    apply negb_true_iff in Ha. rewrite Ha. now rewrite (IH Hx).
Qed.

Lemma strip_prefix_line_head (P s : string) :
  no_lf P = true ->
  strip_prefix P (line_head s) = option_map line_head (strip_prefix P s).
Proof.
  intros HP. revert s. induction P as [|a P IH]; intros s; simpl; [reflexivity|].
  apply andb_true_iff in HP as [Ha HP]. unfold not_char in Ha.
  apply negb_true_iff in Ha.
  destruct s as [|b s]; [reflexivity|].
  cbn [line_head]. destruct (Ascii.eqb_spec b LF) as [->|Hb]; cbn [strip_prefix].
  - rewrite Ascii.eqb_sym, Ha. reflexivity.
  - destruct (Ascii.eqb b a); [now apply IH | reflexivity].
Qed.

(** A match is decided by, and stays within, the line it starts on. *)
Lemma req_match_line_head (s : string) : req_match (line_head s) = req_match s.
Proof.
  unfold req_match. rewrite strip_prefix_line_head by reflexivity.
  destruct (strip_prefix requires_prefix s); simpl; [|reflexivity].
  now rewrite quote_end_line_head.
Qed.

Lemma line_head_app_prefix (P t : string) :
  no_lf P = true -> line_head (P ++ t) = P ++ line_head t.
Proof.
  induction P as [|a P IH]; simpl; intros H; [reflexivity|].
  apply andb_true_iff in H as [Ha HP]. unfold not_char in Ha.
  apply negb_true_iff in Ha. rewrite Ha. now rewrite (IH HP).
Qed.

Lemma req_match_le (s : string) (n : nat) :
  req_match s = Some n -> 0 < n /\ n <= String.length (line_head s).
Proof.
  unfold req_match. destruct (strip_prefix requires_prefix s) as [t|] eqn:E;
    [|discriminate].
  apply strip_prefix_app in E. subst s.
  destruct (quote_end t) as [m|] eqn:Et; [|discriminate].
  simpl option_map. intros H. injection H as <-.
  rewrite line_head_app_prefix by reflexivity. rewrite length_app_s.
  pose proof (quote_end_pos _ _ Et). apply quote_end_le in Et.
  change (String.length requires_prefix) with 19. lia.
Qed.

Lemma req_match_nil : req_match EmptyString = None.
Proof. reflexivity. Qed.

Lemma req_match_lf (s : string) : req_match (String LF s) = None.
Proof. reflexivity. Qed.

(** ** Lemmas on the scan *)

Lemma drop_length (n : nat) (s : string) :
  String.length (drop n s) = String.length s - n.
Proof.
  revert s. induction n as [|n IH]; intros [|a s]; simpl; auto.
Qed.

Lemma sub_scan_requires_skip (t : list titem) (s : string) (k : nat) (bos : bool) :
  sub_scan requires_pattern t bos k s = rsub t (drop k s).
Proof.
  unfold rsub. revert k bos. induction s as [|a s IH]; intros k bos.
  - destruct k; cbn [sub_scan drop]; rewrite !match_len_requires; reflexivity.
  - destruct k as [|k]; cbn [sub_scan drop].
    + rewrite !match_len_requires. reflexivity.
    + apply IH.
Qed.

Lemma rsub_nil (t : list titem) : rsub t EmptyString = EmptyString.
Proof. reflexivity. Qed.

Lemma rsub_none (t : list titem) (a : ascii) (s : string) :
  req_match (String a s) = None -> rsub t (String a s) = String a (rsub t s).
Proof.
  intros H. unfold rsub at 1. cbn [sub_scan].
  rewrite match_len_requires, H. now rewrite sub_scan_requires_skip.
Qed.

Lemma rsub_some (t : list titem) (s : string) (n : nat) :
  req_match s = Some n ->
  rsub t s = expand_template t (take n s) ++ rsub t (drop n s).
Proof.
  intros H. destruct (req_match_le _ _ H) as [Hpos _].
  destruct s as [|a s]; [discriminate|].
  destruct n as [|n]; [lia|].
  unfold rsub at 1. cbn [sub_scan].
  rewrite match_len_requires, H, substring_0.
  now rewrite sub_scan_requires_skip.
Qed.

(** Induction along the scan. *)
Lemma rsub_ind (Q : string -> Prop) :
  Q EmptyString ->
  (forall a s, req_match (String a s) = None -> Q s -> Q (String a s)) ->
  (forall s n, req_match s = Some n -> Q (drop n s) -> Q s) ->
  forall s, Q s.
Proof.
  intros H0 H1 H2 s.
  assert (forall m s, String.length s <= m -> Q s) as Hall.
  { induction m as [|m IH]; intros [|a u] Hlen; simpl in Hlen; auto; try lia.
    destruct (req_match (String a u)) as [n|] eqn:E.
    - apply (H2 _ _ E). apply IH.
      destruct (req_match_le _ _ E) as [Hpos _].
      rewrite drop_length. cbn [String.length]. lia.
    - apply H1; auto. apply IH. lia. }
  apply (Hall (String.length s)). lia.
Qed.

Lemma take_line_head (n : nat) (s : string) :
  n <= String.length (line_head s) -> take n (line_head s) = take n s.
Proof.
  revert s. induction n as [|n IH]; intros [|a s]; simpl; auto.
  destruct (Ascii.eqb a LF); simpl; intros H; [lia|].
  rewrite IH; [reflexivity | lia].
Qed.

Lemma line_head_drop (n : nat) (s : string) :
  n <= String.length (line_head s) -> line_head (drop n s) = drop n (line_head s).
Proof.
  revert s. induction n as [|n IH]; intros [|a s]; simpl; auto.
  destruct (Ascii.eqb a LF) eqn:E; simpl; intros H; [lia|].
  apply IH. lia.
Qed.

Lemma line_tail_drop (n : nat) (s : string) :
  n <= String.length (line_head s) -> line_tail (drop n s) = line_tail s.
Proof.
  revert s. induction n as [|n IH]; intros [|a s]; simpl; auto.
  destruct (Ascii.eqb a LF) eqn:E; simpl; intros H; [lia|].
  apply IH. lia.
Qed.

(** The scan works line by line. *)
Lemma rsub_line_step (t : list titem) (s : string) :
  rsub t s
  = rsub t (line_head s)
    ++ match line_tail s with
       | Some r => String LF (rsub t r)
       | None => EmptyString
       end.
Proof.
  induction s as [|a s Hnone IH | s n Hsome IH] using rsub_ind.
  - reflexivity.
  - rewrite (rsub_none _ _ _ Hnone). cbn [line_head line_tail].
    destruct (Ascii.eqb_spec a LF) as [->|Hne].
    + reflexivity.
    + rewrite rsub_none.
      * rewrite IH. reflexivity.
      * rewrite <- Hnone, <- (req_match_line_head (String a s)). cbn [line_head].
        destruct (Ascii.eqb_spec a LF); [contradiction | reflexivity].
  - destruct (req_match_le _ _ Hsome) as [_ Hle].
    rewrite (rsub_some _ _ _ Hsome), IH.
    rewrite (rsub_some t (line_head s) n) by (now rewrite req_match_line_head).
    rewrite line_head_drop, line_tail_drop, take_line_head by assumption.
    now rewrite app_assoc_s.
Qed.

Lemma rsub_lines (t : list titem) (s : string) :
  rsub t s = str_join nl (map (rsub t) (str_split LF s)).
Proof.
  assert (forall m s, String.length s <= m ->
            rsub t s = str_join nl (map (rsub t) (str_split LF s))) as Hall.
  { induction m as [|m IH]; intros u Hlen;
      rewrite str_split_lines, rsub_line_step;
      destruct (line_tail u) as [r|] eqn:Er.
    - apply line_tail_length in Er. lia.
    - cbn [map str_join]. now rewrite app_nil_r_s.
    - cbn [map]. rewrite str_join_cons.
      + rewrite <- IH; [reflexivity|]. apply line_tail_length in Er. lia.
      + intros Hmap. apply map_eq_nil in Hmap. now apply str_split_nonempty in Hmap.
    - cbn [map str_join]. now rewrite app_nil_r_s. }
  apply (Hall (String.length s)). lia.
Qed.

Lemma re_search_requires (bos : bool) (s : string) :
  re_search_from requires_pattern bos s = false -> req_match s = None.
Proof.
  destruct s; cbn [re_search_from]; rewrite match_len_requires;
    destruct (req_match _); auto; discriminate.
Qed.

(** A line in which the pattern does not occur is left as it is. *)
Lemma rsub_no_match (t : list titem) (s : string) :
  re_search requires_pattern s = false -> rsub t s = s.
Proof.
  unfold re_search. generalize true as bos.
  induction s as [|a s IH]; intros bos H; [reflexivity|].
  pose proof (re_search_requires _ _ H) as Hnone.
  rewrite (rsub_none _ _ _ Hnone). f_equal.
  cbn [re_search_from] in H. rewrite match_len_requires, Hnone in H.
  now apply (IH false).
Qed.

(** ** Lemmas on templates *)

Lemma parse_template_literal (s : string) :
  no_backslash s = true -> parse_template s = Ok (tlits s).
Proof.
  induction s as [|a s IH]; intros H; [reflexivity|].
  apply andb_true_iff in H as [Ha Hs]. unfold not_char in Ha.
  cbn [parse_template tlits]. rewrite Ha, (IH Hs). reflexivity.
Qed.

Lemma expand_tlits (s m : string) : expand_template (tlits s) m = s.
Proof. induction s as [|a s IH]; simpl; congruence. Qed.

Lemma no_backslash_requires_line (v : string) :
  no_backslash v = true -> no_backslash (requires_line v) = true.
Proof.
  intros H. unfold requires_line, no_backslash in *.
  rewrite !all_chars_app, H. reflexivity.
Qed.

Lemma updated_content_unfold (v c : string) :
  updated_content v c
  = match parse_template (requires_line v) with
    | Ok t => Ok (rsub t c)
    | Raise e => Raise e
    end.
Proof.
  unfold updated_content, re_sub. rewrite requires_pattern_compiled. reflexivity.
Qed.

Lemma updated_content_literal (v c : string) :
  no_backslash v = true ->
  updated_content v c = Ok (rsub (requires_template v) c).
Proof.
  intros H. rewrite updated_content_unfold. unfold requires_template.
  now rewrite parse_template_literal by now apply no_backslash_requires_line.
Qed.

(** ** The patch applied twice *)

Lemma count_char_app (c : ascii) (a b : string) :
  count_char c (a ++ b) = count_char c a + count_char c b.
Proof. induction a as [|x a IH]; simpl; [reflexivity|]. rewrite IH. lia. Qed.

Lemma all_chars_drop f (n : nat) (s : string) :
  all_chars f s = true -> all_chars f (drop n s) = true.
Proof.
  revert s. induction n as [|n IH]; intros [|a s] H; simpl; auto.
  apply andb_true_iff in H as [_ H]. now apply IH.
Qed.

Lemma requires_line_eq (v : string) :
  requires_line v = requires_prefix ++ v ++ dq.
Proof. reflexivity. Qed.

(** A match needs two double quotes. *)
Lemma req_match_quotes (s : string) (n : nat) :
  req_match s = Some n -> 2 <= count_char DQUOTE s.
Proof.
  unfold req_match. destruct (strip_prefix requires_prefix s) as [t|] eqn:E;
    [|discriminate].
  apply strip_prefix_app in E. subst s.
  destruct (quote_end t) as [m|] eqn:Et; [intros _ | discriminate].
  destruct (quote_end_spec _ _ Et) as (x & y & -> & _).
  rewrite !count_char_app.
  change (count_char DQUOTE requires_prefix) with 1.
  change (count_char DQUOTE dq) with 1. lia.
Qed.

Lemma rsub_few_quotes (t : list titem) (s : string) :
  count_char DQUOTE s <= 1 -> rsub t s = s.
Proof.
  induction s as [|a s IH]; intros H; [reflexivity|].
  destruct (req_match (String a s)) as [n|] eqn:E.
  - apply req_match_quotes in E. lia.
  - rewrite (rsub_none _ _ _ E). f_equal. apply IH.
    cbn [count_char] in H. lia.
Qed.

Lemma no_quote_after (y : string) :
  no_lf y = true -> quote_end y = None -> count_char DQUOTE y = 0.
Proof.
  induction y as [|a y IH]; simpl; intros Hlf Hq; [reflexivity|].
  apply andb_true_iff in Hlf as [Ha Hy]. unfold not_char in Ha.
  apply negb_true_iff in Ha. rewrite Ha in Hq.
  destruct (quote_end y); [discriminate|].
  destruct (Ascii.eqb a DQUOTE); [discriminate|].
  now rewrite IH.
Qed.

Section Literal.
(** The target version is free of backslashes: the replacement is the
    text [requires-python = "<version>"] itself. *)
Variable v : string.
Let t : list titem := requires_template v.

Lemma rsub_literal_some (s : string) (n : nat) :
  req_match s = Some n -> rsub t s = requires_line v ++ rsub t (drop n s).
Proof.
  intros H. rewrite (rsub_some _ _ _ H). unfold t, requires_template.
  now rewrite expand_tlits.
Qed.

(** The scan keeps the first characters of its subject, up to the
    length of the fixed prefix of the pattern. *)
Lemma take_rsub (s : string) (k : nat) :
  k <= String.length requires_prefix -> take k (rsub t s) = take k s.
Proof.
  revert k. induction s as [|a s Hnone IH | s n Hsome _] using rsub_ind; intros k Hk.
  - reflexivity.
  - rewrite (rsub_none _ _ _ Hnone). destruct k as [|k]; [reflexivity|].
    cbn [take]. rewrite IH; [reflexivity | lia].
  - rewrite (rsub_literal_some _ _ Hsome), requires_line_eq, app_assoc_s.
    unfold req_match in Hsome.
    destruct (strip_prefix requires_prefix s) as [u|] eqn:E; [|discriminate].
    apply strip_prefix_app in E. subst s.
    now rewrite !take_app_le by assumption.
Qed.

Hypothesis v_no_lf : no_lf v = true.

Lemma no_lf_requires_line : no_lf (requires_line v) = true.
Proof.
  unfold requires_line, no_lf in *. rewrite !all_chars_app, v_no_lf. reflexivity.
Qed.

Lemma rsub_no_lf (l : string) : no_lf l = true -> no_lf (rsub t l) = true.
Proof.
  induction l as [|a l Hnone IH | l n Hsome IH] using rsub_ind; intros H.
  - reflexivity.
  - rewrite (rsub_none _ _ _ Hnone). unfold no_lf in *. cbn [all_chars] in *.
    apply andb_true_iff in H as [Ha Hl]. now rewrite Ha, IH.
  - rewrite (rsub_literal_some _ _ Hsome). unfold no_lf in *.
    rewrite all_chars_app. fold (no_lf (requires_line v)).
    rewrite no_lf_requires_line. apply IH. now apply all_chars_drop.
Qed.

(** What a match on one line looks like, and what the scan makes of
    the line from there. *)
Lemma rsub_line_match (l : string) (n : nat) :
  no_lf l = true -> req_match l = Some n ->
  exists old y,
    l = requires_line old ++ y /\ drop n l = y /\ count_char DQUOTE y = 0
    /\ quote_end y = None /\ rsub t l = requires_line v ++ y.
Proof.
  intros Hlf Hsome. pose proof (rsub_literal_some _ _ Hsome) as Hr.
  unfold req_match in Hsome.
  destruct (strip_prefix requires_prefix l) as [u|] eqn:E; [|discriminate].
  apply strip_prefix_app in E. subst l.
  destruct (quote_end u) as [m|] eqn:Eu; [|discriminate].
  destruct (quote_end_spec _ _ Eu) as (x & y & -> & -> & Hx & Hy).
  assert (n = String.length (requires_prefix ++ x ++ dq)) as ->.
  { cbn [option_map] in Hsome. injection Hsome as <-.
    rewrite !length_app_s. simpl. lia. }
  assert (drop (String.length (requires_prefix ++ x ++ dq))
            (requires_prefix ++ x ++ dq ++ y) = y) as Hdrop.
  { replace (requires_prefix ++ x ++ dq ++ y)
      with ((requires_prefix ++ x ++ dq) ++ y) by now rewrite !app_assoc_s.
    apply drop_app_length. }
  assert (count_char DQUOTE y = 0) as Hcount.
  { apply no_quote_after; auto.
    unfold no_lf in Hlf. rewrite !all_chars_app in Hlf.
    repeat (apply andb_true_iff in Hlf as [_ Hlf]). exact Hlf. }
  exists x, y. repeat split; auto.
  - now rewrite requires_line_eq, !app_assoc_s.
  - rewrite Hr, Hdrop. f_equal. apply rsub_few_quotes. lia.
Qed.

(** On a line that holds the pattern, the text from the first position
    at which it matches to the last double quote of the line is
    replaced; the text before and after stays. *)
Lemma rsub_line_occurrence (bos : bool) (l : string) :
  no_lf l = true ->
  re_search_from requires_pattern bos l = true ->
  exists b old y,
    l = b ++ requires_line old ++ y
    /\ (forall k, k < String.length b ->
          match_len requires_pattern false (drop k l) = None)
    /\ count_char DQUOTE y = 0
    /\ rsub t l = b ++ requires_line v ++ y.
Proof.
  revert bos. induction l as [|a l IH]; intros bos Hlf Hs.
  - cbn [re_search_from] in Hs. rewrite match_len_requires in Hs. discriminate.
  - destruct (req_match (String a l)) as [n|] eqn:E.
    + destruct (rsub_line_match _ _ Hlf E) as (old & y & Hl & _ & Hc & _ & Hr).
      exists EmptyString, old, y. repeat split; auto.
      cbn [String.length]. intros k Hk. lia.
    + cbn [re_search_from] in Hs. rewrite match_len_requires, E in Hs.
      assert (no_lf l = true) as Hl.
      { unfold no_lf in *. cbn [all_chars] in Hlf.
        now apply andb_true_iff in Hlf as [_ Hlf]. }
      destruct (IH false Hl Hs) as (b & old & y & Heq & Hb & Hc & Hr).
      exists (String a b), old, y. repeat split; auto.
      * cbn [append]. now rewrite <- Heq.
      * intros [|k] Hk; cbn [drop].
        -- now rewrite match_len_requires.
        -- apply Hb. cbn [String.length] in Hk. lia.
      * rewrite (rsub_none _ _ _ E), Hr. reflexivity.
Qed.

Lemma req_match_requires_line (y : string) :
  quote_end y = None ->
  req_match (requires_line v ++ y) = Some (String.length (requires_line v)).
Proof.
  intros Hy. rewrite requires_line_eq, !app_assoc_s.
  unfold req_match. rewrite strip_prefix_app_same.
  rewrite quote_end_app by assumption.
  cbn [option_map]. f_equal. rewrite !length_app_s. simpl. lia.
Qed.

(** On one line the patch is idempotent. *)
Lemma rsub_line_idem (l : string) :
  no_lf l = true -> rsub t (rsub t l) = rsub t l.
Proof.
  induction l as [|a l Hnone IH | l n Hsome _] using rsub_ind; intros Hlf.
  - reflexivity.
  - assert (no_lf l = true) as Hl.
    { unfold no_lf in *. cbn [all_chars] in Hlf.
      now apply andb_true_iff in Hlf as [_ Hlf]. }
    rewrite (rsub_none _ _ _ Hnone).
    pose proof Hnone as Hn. unfold req_match in Hn.
    destruct (strip_prefix requires_prefix (String a l)) as [u|] eqn:E.
    + (* the prefix is there, the closing quote is not *)
      destruct (quote_end u) eqn:Eu; [discriminate|].
      pose proof (strip_prefix_app _ _ _ E) as Heq.
      assert (count_char DQUOTE l <= 1) as Hcount.
      { assert (count_char DQUOTE (String a l) = 1) as Hc.
        { rewrite Heq, count_char_app.
          rewrite (no_quote_after u); [reflexivity | | assumption].
          rewrite Heq in Hlf. unfold no_lf in *.
          rewrite all_chars_app in Hlf.
          now apply andb_true_iff in Hlf as [_ Hlf]. }
        cbn [count_char] in Hc. lia. }
      rewrite (rsub_few_quotes _ _ Hcount), (rsub_none _ _ _ Hnone).
      now rewrite (rsub_few_quotes _ _ Hcount).
    + (* the prefix is not there *)
      rewrite rsub_none; [now rewrite (IH Hl)|].
      unfold req_match.
      replace (strip_prefix requires_prefix (String a (rsub t l))) with (@None string);
        [reflexivity|].
      symmetry. apply strip_prefix_take.
      apply strip_prefix_take in E.
      change (String.length requires_prefix) with (S 18) in *.
      rewrite take_cons in *. rewrite take_rsub by (cbn; lia). exact E.
  - destruct (rsub_line_match _ _ Hlf Hsome) as (old & y & _ & _ & Hcount & Hy & ->).
    rewrite (rsub_literal_some _ _ (req_match_requires_line _ Hy)).
    rewrite drop_app_length. f_equal. apply rsub_few_quotes. lia.
Qed.

(** On any text the patch is idempotent. *)
Lemma rsub_idem (s : string) : rsub t (rsub t s) = rsub t s.
Proof.
  assert (forall m s, String.length s <= m -> rsub t (rsub t s) = rsub t s) as Hall.
  { induction m as [|m IH]; intros u Hlen;
      rewrite (rsub_line_step t u);
      pose proof (rsub_no_lf _ (no_lf_line_head u)) as Hh;
      destruct (line_tail u) as [r|] eqn:Er.
    - apply line_tail_length in Er. lia.
    - rewrite app_nil_r_s. apply rsub_line_idem, no_lf_line_head.
    - rewrite rsub_line_step.
      rewrite line_head_app, line_tail_app by assumption.
      rewrite rsub_line_idem by apply no_lf_line_head.
      rewrite IH; [reflexivity|]. apply line_tail_length in Er. lia.
    - rewrite app_nil_r_s. apply rsub_line_idem, no_lf_line_head. }
  apply (Hall (String.length s)). lia.
Qed.
End Literal.

(** ** Lemmas on the run *)

Lemma lstrip_empty (s : string) :
  lstrip s = EmptyString <-> all_chars is_space s = true.
Proof.
  induction s as [|a s IH]; cbn [lstrip all_chars]; [tauto|].
  destruct (is_space a); cbn [andb]; [exact IH|].
  split; discriminate.
Qed.

Lemma lstrip_head (s : string) (a : ascii) (r : string) :
  lstrip s = String a r -> is_space a = false.
Proof.
  induction s as [|b s IH]; cbn [lstrip]; [discriminate|].
  destruct (is_space b) eqn:E; [exact IH|].
  intros H. injection H as -> _. exact E.
Qed.

Lemma rstrip_head (a : ascii) (s : string) :
  is_space a = false -> rstrip (String a s) <> EmptyString.
Proof.
  intros H. cbn [rstrip]. destruct (rstrip s); [rewrite H|]; discriminate.
Qed.

(** A string is blank for [strip] exactly when it is all white space. *)
Lemma strip_blank (s : string) :
  strip s = EmptyString <-> all_chars is_space s = true.
Proof.
  unfold strip. split.
  - intros H. apply lstrip_empty. destruct (lstrip s) as [|a r] eqn:E; [reflexivity|].
    apply lstrip_head in E. now apply (rstrip_head a r) in E.
  - intros H. apply lstrip_empty in H. now rewrite H.
Qed.

Lemma universal_newlines_no_cr (s : string) :
  no_cr (universal_newlines s) = true.
Proof.
  assert (forall m s, String.length s <= m -> no_cr (universal_newlines s) = true)
    as Hall.
  { induction m as [|m IH]; intros [|a u] Hlen; cbn [String.length] in Hlen;
      try reflexivity; try lia.
    cbn [universal_newlines]. destruct (Ascii.eqb a CR) eqn:Ea.
    - unfold no_cr. cbn [all_chars]. cbn [Ascii.eqb negb andb].
      destruct u as [|b u']; [reflexivity|].
      destruct (Ascii.eqb b LF); apply IH; cbn [String.length] in *; lia.
    - unfold no_cr. cbn [all_chars]. rewrite Ea. cbn [negb andb].
      apply IH. lia. }
  apply (Hall (String.length s)). lia.
Qed.

Lemma universal_newlines_id (s : string) :
  no_cr s = true -> universal_newlines s = s.
Proof.
  induction s as [|a s IH]; intros H; [reflexivity|].
  unfold no_cr in H. cbn [all_chars] in H.
  apply andb_true_iff in H as [Ha Hs]. apply negb_true_iff in Ha.
  cbn [universal_newlines]. rewrite Ha. now rewrite (IH Hs).
Qed.

Lemma universal_newlines_idem (s : string) :
  universal_newlines (universal_newlines s) = universal_newlines s.
Proof. apply universal_newlines_id, universal_newlines_no_cr. Qed.

(** Text mode works piece by piece, unless the cut falls between a
    carriage return and the line feed that follows it. *)
Lemma universal_newlines_app (x : string) (b : ascii) (r : string) :
  Ascii.eqb b LF = false ->
  universal_newlines (x ++ String b r)
  = universal_newlines x ++ universal_newlines (String b r).
Proof.
  intros Hb. remember (String b r) as s eqn:Es.
  assert (forall m x, String.length x <= m ->
            universal_newlines (x ++ s)
            = universal_newlines x ++ universal_newlines s) as Hall.
  { induction m as [|m IH]; intros [|a u] Hlen; cbn [String.length] in Hlen;
      try reflexivity; try lia.
    cbn [append universal_newlines].
    destruct (Ascii.eqb a CR); cbn [append]; f_equal.
    - destruct u as [|c u']; cbn [append].
      + rewrite Es at 1. now rewrite Hb.
      + destruct (Ascii.eqb c LF).
        * apply IH. cbn [String.length] in Hlen. lia.
        * refine (IH (String c u') _). lia.
    - apply IH. lia. }
  apply (Hall (String.length x)). lia.
Qed.

Lemma universal_newlines_cr_lf (x y : string) :
  universal_newlines (x ++ String CR (String LF y))
  = universal_newlines x ++ String LF (universal_newlines y).
Proof. now rewrite universal_newlines_app. Qed.

Lemma universal_newlines_cr (x y : string) :
  (forall r, y <> String LF r) ->
  universal_newlines (x ++ String CR y)
  = universal_newlines x ++ String LF (universal_newlines y).
Proof.
  intros Hy. rewrite universal_newlines_app by reflexivity. f_equal.
  cbn [universal_newlines]. change (Ascii.eqb CR CR) with true. cbn iota.
  destruct y as [|c y']; [reflexivity|].
  destruct (Ascii.eqb_spec c LF) as [->|]; [now destruct (Hy y') | reflexivity].
Qed.

Lemma update_pyproject_toml_run (w : world) (v : string) (st : state) :
  update_pyproject_toml w v st
  = match pyproject_toml st with
    | None => (Raise (read_error w), st)
    | Some c =>
        match updated_content v (universal_newlines c) with
        | Raise e => (Raise e, after_read st)
        | Ok c' =>
            if pyproject_writable w then
              (Ok tt,
               {| pyproject_toml := Some c';
                  trace := (trace st ++ [ERead pyproject_path;
                                         EWrite pyproject_path c'])%list |})
            else (Raise PermissionError, after_read st)
        end
    end.
Proof.
  unfold update_pyproject_toml, bind, read_pyproject, lift, write_pyproject, after_read.
  destruct (pyproject_toml st) as [c|]; [|reflexivity].
  destruct (updated_content v (universal_newlines c)) as [c'|e]; [|reflexivity].
  destruct (pyproject_writable w); [|reflexivity].
  cbn [trace]. now rewrite <- app_assoc.
Qed.

Lemma get_installed_python_versions_run (w : world) (st : state) :
  get_installed_python_versions w st
  = match exec w pyenv_versions_argv with
    | LaunchError e => (Raise e, after_run st)
    | Undecodable _ => (Raise UnicodeDecodeError, after_run st)
    | Exited returncode stdout =>
        (Ok (if (returncode =? 0)%Z then splitlines (strip stdout) else []),
         after_run st)
    end.
Proof.
  unfold get_installed_python_versions, subprocess_run, bind, emit, raise, ret, after_run.
  destruct (exec w pyenv_versions_argv) as [e|rc|rc out]; [reflexivity..|].
  now destruct (rc =? 0)%Z.
Qed.

Lemma resolve_blank (w : world) (placeholder : string) (st st1 : state)
    (l : list string) :
  strip placeholder = EmptyString ->
  get_installed_python_versions w st = (Ok l, st1) ->
  resolve_min_python w placeholder st
  = (latest_version <- lift (get_latest_installed_python_version l) ;;
     if truthy latest_version then
       let min_python := ">=" ++ str_of latest_version in
       print ("Using latest installed Python version: " ++ min_python) ;;
       update_pyproject_toml w min_python ;;
       ret min_python
     else
       print warning_line ;;
       update_pyproject_toml w default_min_python ;;
       ret default_min_python) st1.
Proof.
  intros Hblank Hinst. unfold resolve_min_python. rewrite Hblank.
  cbn [truthy negb]. unfold bind at 1. now rewrite Hinst.
Qed.

Lemma resolve_with_version (w : world) (v c : string) (st : state) :
  no_backslash v = true ->
  pyproject_toml st = Some c -> pyproject_writable w = true ->
  (print ("Using latest installed Python version: " ++ v) ;;
   update_pyproject_toml w v ;; ret v) st
  = (Ok v,
     {| pyproject_toml := Some (rsub (requires_template v) (universal_newlines c));
        trace := (trace st ++ [EPrint ("Using latest installed Python version: " ++ v);
                               ERead pyproject_path;
                               EWrite pyproject_path
                                 (rsub (requires_template v)
                                    (universal_newlines c))])%list |}).
Proof.
  intros Hv Hc Hw. unfold bind at 1. unfold print, emit. unfold bind.
  rewrite update_pyproject_toml_run. cbn [pyproject_toml trace].
  rewrite Hc, (updated_content_literal _ _ Hv), Hw. unfold ret.
  now rewrite <- app_assoc.
Qed.

Lemma resolve_with_default (w : world) (c : string) (st : state) :
  pyproject_toml st = Some c -> pyproject_writable w = true ->
  (print warning_line ;;
   update_pyproject_toml w default_min_python ;; ret default_min_python) st
  = (Ok default_min_python,
     {| pyproject_toml := Some (rsub (requires_template default_min_python)
                                  (universal_newlines c));
        trace := (trace st ++ [EPrint warning_line;
                               ERead pyproject_path;
                               EWrite pyproject_path
                                 (rsub (requires_template default_min_python)
                                    (universal_newlines c))])%list |}).
Proof.
  intros Hc Hw. unfold bind at 1. unfold print, emit. unfold bind.
  rewrite update_pyproject_toml_run. cbn [pyproject_toml trace].
  rewrite Hc, (updated_content_literal default_min_python _ eq_refl), Hw. unfold ret.
  now rewrite <- app_assoc.
Qed.

(** What the shell step of [main] does, by the outcome of the command. *)
Lemma shell_check_run (w : world) (cmd : string) (st : state) :
  subprocess_run_shell_check w cmd st
  = match shell w cmd with
    | LaunchError e =>
        (Raise e, {| pyproject_toml := pyproject_toml st;
                     trace := (trace st ++ [EShell cmd])%list |})
    | Undecodable returncode | Exited returncode _ =>
        (if (returncode =? 0)%Z then Ok tt else Raise (CalledProcessError returncode),
         {| pyproject_toml := shell_effect w cmd (pyproject_toml st);
            trace := (trace st ++ [EShell cmd])%list |})
    end.
Proof.
  unfold subprocess_run_shell_check, bind, emit, shell_ran, check_returncode, raise, ret.
  destruct (shell w cmd) as [e|rc|rc out]; [reflexivity|..];
    now destruct (rc =? 0)%Z.
Qed.

(** The file [main] leaves is the file the resolution of the version
    left, handed to the command line of [pdm use] when that is run. *)
Lemma main_file (w : world) (placeholder : string) (st : state) :
  pyproject_toml (snd (main w placeholder st))
  = match resolve_min_python w placeholder st with
    | (Ok v, st1) =>
        match shell w (pdm_use_cmd v) with
        | LaunchError _ => pyproject_toml st1
        | _ => shell_effect w (pdm_use_cmd v) (pyproject_toml st1)
        end
    | (Raise _, st1) => pyproject_toml st1
    end.
Proof.
  unfold main. unfold bind at 1.
  destruct (resolve_min_python w placeholder st) as [[v|e] st1]; [|reflexivity].
  unfold bind at 1. rewrite shell_check_run.
  destruct (shell w (pdm_use_cmd v)) as [e|rc|rc out]; [reflexivity|..];
    now destruct (rc =? 0)%Z.
Qed.

Lemma line_sub_template (v l : string) (t : list titem) :
  parse_template (requires_line v) = Ok t -> line_sub v l = rsub t l.
Proof.
  intros H. unfold line_sub. now rewrite updated_content_unfold, H.
Qed.

Lemma line_sub_requires_line (v old : string) :
  no_backslash v = true -> no_lf old = true ->
  line_sub v (requires_line old) = requires_line v.
Proof.
  intros Hv Hold.
  rewrite (line_sub_template v _ (requires_template v))
    by now apply parse_template_literal, no_backslash_requires_line.
  pose proof (req_match_requires_line old Hold EmptyString eq_refl) as Hm.
  rewrite app_nil_r_s in Hm.
  rewrite (rsub_literal_some v _ _ Hm).
  rewrite <- (app_nil_r_s (requires_line old)) at 2.
  rewrite drop_app_length. apply app_nil_r_s.
Qed.

Lemma line_sub_occurrence (v l : string) :
  no_backslash v = true -> no_lf l = true ->
  re_search requires_pattern l = true ->
  exists b old y,
    l = b ++ requires_line old ++ y
    /\ (forall k, k < String.length b ->
          match_len requires_pattern false (drop k l) = None)
    /\ count_char DQUOTE y = 0
    /\ line_sub v l = b ++ requires_line v ++ y.
Proof.
  intros Hv Hl Hs.
  rewrite (line_sub_template v _ (requires_template v))
    by now apply parse_template_literal, no_backslash_requires_line.
  exact (rsub_line_occurrence v true l Hl Hs).
Qed.

Lemma line_sub_no_match (v l : string) :
  re_search requires_pattern l = false -> line_sub v l = l.
Proof.
  intros H. unfold line_sub. rewrite updated_content_unfold.
  destruct (parse_template (requires_line v)); [now apply rsub_no_match | reflexivity].
Qed.

Lemma updated_content_lines (v c c' : string) :
  updated_content v c = Ok c' ->
  c' = str_join nl (map (line_sub v) (str_split LF c)).
Proof.
  rewrite updated_content_unfold.
  destruct (parse_template (requires_line v)) as [t|e] eqn:Et; [|discriminate].
  intros H. injection H as <-. rewrite rsub_lines. f_equal.
  apply map_ext. intros l. symmetry. now apply line_sub_template.
Qed.


(** ** The patch applied twice, for a version with line feeds *)

Lemma quote_end_none_iff (y : string) :
  quote_end y = None <-> count_char DQUOTE (line_head y) = 0.
Proof.
  induction y as [|a y IH]; cbn [quote_end line_head]; [tauto|].
  destruct (Ascii.eqb a LF); [cbn; tauto|].
  cbn [count_char]. destruct (quote_end y).
  - split; [discriminate|]. intros H.
    assert (count_char DQUOTE (line_head y) = 0) as H0 by lia.
    apply IH in H0. discriminate.
  - destruct (Ascii.eqb a DQUOTE); [split; [discriminate | lia]|].
    split; [intros _; cbn; now apply IH | reflexivity].
Qed.

Lemma count_line_head_le (s : string) :
  count_char DQUOTE (line_head s) <= count_char DQUOTE s.
Proof.
  induction s as [|a s IH]; cbn [line_head count_char]; [lia|].
  destruct (Ascii.eqb a LF); cbn [count_char]; lia.
Qed.

Lemma count_line_head_app (a b : string) :
  count_char DQUOTE (line_head (a ++ b))
  <= count_char DQUOTE a + count_char DQUOTE (line_head b).
Proof.
  induction a as [|x a IH]; cbn [append line_head count_char]; [lia|].
  destruct (Ascii.eqb x LF); cbn [count_char]; lia.
Qed.

Lemma count_no_dquote (s : string) :
  no_dquote s = true -> count_char DQUOTE s = 0.
Proof.
  unfold no_dquote. induction s as [|a s IH]; cbn [all_chars count_char];
    intros H; [reflexivity|].
  apply andb_true_iff in H as [Ha Hs]. apply negb_true_iff in Ha.
  rewrite Ha, (IH Hs). reflexivity.
Qed.

Lemma line_head_app_lf (v x : string) :
  no_lf v = false -> line_head (v ++ x) = line_head v.
Proof.
  unfold no_lf. induction v as [|a v IH]; cbn [all_chars append line_head];
    intros H; [discriminate|].
  unfold not_char in H at 1.
  destruct (Ascii.eqb a LF); [reflexivity|].
  cbn [negb andb] in H. now rewrite (IH H).
Qed.

(** A match needs two double quotes on the line it starts on. *)
Lemma req_match_line_quotes (s : string) (n : nat) :
  req_match s = Some n -> 2 <= count_char DQUOTE (line_head s).
Proof.
  intros H. rewrite <- req_match_line_head in H. now apply req_match_quotes in H.
Qed.

(** The scan steps over a text with one double quote at most when the
    line that follows it has none. *)
Lemma rsub_skip_sparse (t : list titem) (a b : string) :
  count_char DQUOTE a <= 1 -> count_char DQUOTE (line_head b) = 0 ->
  rsub t (a ++ b) = a ++ rsub t b.
Proof.
  induction a as [|x a IH]; intros Ha Hb; [reflexivity|].
  cbn [append]. rewrite rsub_none.
  - rewrite IH; [reflexivity | cbn [count_char] in Ha; lia | exact Hb].
  - destruct (req_match (String x (a ++ b))) as [n|] eqn:E; [|reflexivity].
    apply req_match_line_quotes in E.
    pose proof (count_line_head_app (String x a) b) as H. cbn [append] in H. lia.
Qed.

Lemma line_head_rsub_few (t : list titem) (s : string) :
  count_char DQUOTE (line_head s) <= 1 -> line_head (rsub t s) = line_head s.
Proof.
  intros H. rewrite rsub_line_step, (rsub_few_quotes t _ H).
  rewrite line_head_app_prefix by apply no_lf_line_head.
  destruct (line_tail s); cbn [line_head]; [|apply app_nil_r_s].
  change (Ascii.eqb LF LF) with true. cbn iota. apply app_nil_r_s.
Qed.

Lemma quote_end_rsub (t : list titem) (z : string) :
  quote_end z = None -> quote_end (rsub t z) = None.
Proof.
  intros H. apply quote_end_none_iff in H. apply quote_end_none_iff.
  rewrite line_head_rsub_few by lia. exact H.
Qed.

(** What a match looks like, on a text of several lines. *)
Lemma req_match_drop (s : string) (n : nat) :
  req_match s = Some n ->
  exists old,
    s = requires_line old ++ drop n s /\ no_lf old = true
    /\ n = String.length (requires_line old)
    /\ quote_end (drop n s) = None.
Proof.
  unfold req_match.
  destruct (strip_prefix requires_prefix s) as [u|] eqn:E; [|discriminate].
  apply strip_prefix_app in E. subst s.
  destruct (quote_end u) as [m|] eqn:Eu; [|discriminate].
  destruct (quote_end_spec _ _ Eu) as (x & y & -> & -> & Hx & Hy).
  cbn [option_map]. intros H.
  assert (n = String.length (requires_line x)) as ->.
  { injection H as <-. rewrite requires_line_eq, !length_app_s. simpl. lia. }
  assert (requires_prefix ++ x ++ dq ++ y = requires_line x ++ y) as Heq.
  { now rewrite requires_line_eq, !app_assoc_s. }
  rewrite Heq, drop_app_length. exists x. auto.
Qed.

Lemma rsub_replacement_prefix (v z : string) :
  no_lf v = true \/ no_dquote v = true ->
  quote_end z = None ->
  rsub (requires_template v) (requires_line v ++ z)
  = requires_line v ++ rsub (requires_template v) z.
Proof.
  intros Hv Hz. destruct (no_lf v) eqn:Elf.
  - rewrite (rsub_literal_some v _ _ (req_match_requires_line v Elf z Hz)).
    now rewrite drop_app_length.
  - destruct Hv as [Hv|Hq]; [discriminate|].
    apply quote_end_none_iff in Hz. apply count_no_dquote in Hq.
    rewrite requires_line_eq, !app_assoc_s.
    rewrite rsub_skip_sparse.
    + f_equal. rewrite <- (app_assoc_s v dq z).
      rewrite rsub_skip_sparse; [now rewrite app_assoc_s | | exact Hz].
      rewrite count_char_app, Hq. change (count_char DQUOTE dq) with 1. lia.
    + change (count_char DQUOTE requires_prefix) with 1. lia.
    + rewrite line_head_app_lf by exact Elf.
      pose proof (count_line_head_le v). lia.
Qed.

(** The patch is idempotent on any text when the version has no line
    feed, or no double quote. *)
Lemma rsub_idem_gen (v s : string) :
  no_lf v = true \/ no_dquote v = true ->
  rsub (requires_template v) (rsub (requires_template v) s)
  = rsub (requires_template v) s.
Proof.
  intros Hv.
  induction s as [|a s Hnone IH | s n Hsome IH] using rsub_ind.
  - reflexivity.
  - rewrite (rsub_none _ _ _ Hnone).
    assert (req_match (String a (rsub (requires_template v) s)) = None) as Hn2.
    { pose proof Hnone as Hn. unfold req_match in Hn.
      destruct (strip_prefix requires_prefix (String a s)) as [u|] eqn:E.
      - destruct (quote_end u) eqn:Eu; [discriminate|].
        apply strip_prefix_app in E. apply quote_end_none_iff in Eu.
        assert (count_char DQUOTE (line_head (String a s)) <= 1) as Hc.
        { rewrite E, line_head_app_prefix by reflexivity.
          rewrite count_char_app, Eu.
          change (count_char DQUOTE requires_prefix) with 1. lia. }
        rewrite <- (rsub_none (requires_template v) _ _ Hnone).
        rewrite <- req_match_line_head, (line_head_rsub_few _ _ Hc).
        now rewrite req_match_line_head.
      - unfold req_match.
        replace (strip_prefix requires_prefix
                   (String a (rsub (requires_template v) s)))
          with (@None string); [reflexivity|].
        symmetry. apply strip_prefix_take. apply strip_prefix_take in E.
        change (String.length requires_prefix) with (S 18) in *.
        rewrite take_cons in *. rewrite take_rsub by (cbn; lia). exact E. }
    rewrite (rsub_none _ _ _ Hn2), IH. reflexivity.
  - destruct (req_match_drop _ _ Hsome) as (old & _ & _ & _ & Hy).
    rewrite (rsub_literal_some v _ _ Hsome).
    rewrite rsub_replacement_prefix by (auto using quote_end_rsub).
    now rewrite IH.
Qed.

Lemma rsub_all_chars (f : ascii -> bool) (v s : string) :
  all_chars f (requires_line v) = true -> all_chars f s = true ->
  all_chars f (rsub (requires_template v) s) = true.
Proof.
  intros Hv.
  induction s as [|a s Hnone IH | s n Hsome IH] using rsub_ind; intros H.
  - reflexivity.
  - rewrite (rsub_none _ _ _ Hnone). cbn [all_chars] in *.
    apply andb_true_iff in H as [Ha Hs]. now rewrite Ha, IH.
  - rewrite (rsub_literal_some v _ _ Hsome), all_chars_app, Hv.
    apply IH. now apply all_chars_drop.
Qed.

Lemma no_cr_requires_line (v : string) :
  no_cr v = true -> no_cr (requires_line v) = true.
Proof.
  intros H. unfold requires_line, no_cr in *. rewrite !all_chars_app, H. reflexivity.
Qed.

(** The patched text of a file read in text mode is read back as it is. *)
Lemma universal_newlines_rsub (v c : string) :
  no_cr v = true ->
  universal_newlines (rsub (requires_template v) (universal_newlines c))
  = rsub (requires_template v) (universal_newlines c).
Proof.
  intros Hv. apply universal_newlines_id. unfold no_cr.
  apply rsub_all_chars; [now apply no_cr_requires_line|].
  apply universal_newlines_no_cr.
Qed.

(** ** The pattern in a text read in text mode *)

Lemma count_line_head_universal (u : string) :
  count_char DQUOTE (line_head (universal_newlines u))
  <= count_char DQUOTE (line_head u).
Proof.
  induction u as [|a u IH]; [cbn; lia|].
  cbn [universal_newlines]. destruct (Ascii.eqb a CR) eqn:Ecr.
  - cbn [line_head]. change (Ascii.eqb LF LF) with true. cbn [count_char]. lia.
  - cbn [line_head]. destruct (Ascii.eqb a LF); cbn [count_char]; lia.
Qed.

Lemma strip_prefix_universal (P s u' : string) :
  no_lf P = true ->
  strip_prefix P (universal_newlines s) = Some u' ->
  exists u, strip_prefix P s = Some u /\ u' = universal_newlines u.
Proof.
  intros HP. revert s. induction P as [|a P IH]; intros s H.
  - cbn [strip_prefix] in *. injection H as <-. now exists s.
  - apply andb_true_iff in HP as [Ha HP]. unfold not_char in Ha.
    apply negb_true_iff in Ha.
    destruct s as [|b s]; [discriminate|].
    cbn [universal_newlines] in H. destruct (Ascii.eqb b CR) eqn:Ecr.
    + cbn [strip_prefix] in H. rewrite Ascii.eqb_sym, Ha in H. discriminate.
    + cbn [strip_prefix] in *. destruct (Ascii.eqb b a); [|discriminate].
      now apply IH.
Qed.

Lemma req_match_universal (s : string) :
  req_match s = None -> req_match (universal_newlines s) = None.
Proof.
  intros H. unfold req_match in *.
  destruct (strip_prefix requires_prefix (universal_newlines s)) as [u'|] eqn:E;
    [|reflexivity].
  destruct (strip_prefix_universal requires_prefix _ _ eq_refl E) as (u & Hu & ->).
  rewrite Hu in H. destruct (quote_end u) eqn:Eu; [discriminate|].
  apply quote_end_none_iff in Eu.
  pose proof (count_line_head_universal u) as Hle.
  assert (quote_end (universal_newlines u) = None) as ->
    by (apply quote_end_none_iff; lia).
  reflexivity.
Qed.

(** Text mode brings no occurrence of the pattern into a text. *)
Lemma re_search_universal (c : string) :
  re_search requires_pattern c = false ->
  re_search requires_pattern (universal_newlines c) = false.
Proof.
  unfold re_search. generalize true at 1 as bos. generalize true as bos'.
  assert (forall m s bos bos', String.length s <= m ->
            re_search_from requires_pattern bos s = false ->
            re_search_from requires_pattern bos' (universal_newlines s) = false)
    as Hall.
  { induction m as [|m IH]; intros [|a r] bos bos' Hlen H;
      cbn [String.length] in Hlen; try lia;
      try (cbn [universal_newlines re_search_from];
           now rewrite match_len_requires).
    pose proof (re_search_requires _ _ H) as Hnone.
    cbn [re_search_from] in H. rewrite match_len_requires, Hnone in H.
    pose proof (req_match_universal _ Hnone) as Hun.
    cbn [universal_newlines] in *. destruct (Ascii.eqb a CR).
    - cbn [re_search_from]. rewrite match_len_requires.
      change (req_match (String LF ?x)) with (@None nat).
      destruct r as [|b r']; [reflexivity|].
      destruct (Ascii.eqb b LF).
      + pose proof (re_search_requires _ _ H) as Hn'.
        cbn [re_search_from] in H. rewrite match_len_requires, Hn' in H.
        apply (IH r' false false); [cbn [String.length] in Hlen; lia | exact H].
      + apply (IH (String b r') false false); [lia | exact H].
    - cbn [re_search_from]. rewrite match_len_requires, Hun.
      apply (IH r false false); [lia | exact H]. }
  intros bos' bos. apply (Hall (String.length c)). lia.
Qed.

(** ** More lemmas on the run *)

Lemma rsub_as_lines (v c : string) :
  no_backslash v = true ->
  rsub (requires_template v) c
  = str_join nl (map (line_sub v) (str_split LF c)).
Proof.
  intros Hv. apply updated_content_lines. now apply updated_content_literal.
Qed.

Lemma main_file_after (w : world) (placeholder v : string) (st st1 : state) :
  resolve_min_python w placeholder st = (Ok v, st1) ->
  pyproject_toml (snd (main w placeholder st))
  = match shell w (pdm_use_cmd v) with
    | LaunchError _ => pyproject_toml st1
    | _ => shell_effect w (pdm_use_cmd v) (pyproject_toml st1)
    end.
Proof. intros H. now rewrite main_file, H. Qed.

Lemma main_raises_with_resolve (w : world) (placeholder : string) (st st1 : state)
    (e : exn) :
  resolve_min_python w placeholder st = (Raise e, st1) ->
  main w placeholder st = (Raise e, st1).
Proof. intros H. unfold main. unfold bind at 1. now rewrite H. Qed.

Lemma resolve_nonblank (w : world) (placeholder : string) (st : state) :
  all_chars is_space placeholder = false ->
  resolve_min_python w placeholder st = (Ok placeholder, st).
Proof.
  intros Hns. unfold resolve_min_python.
  destruct (strip placeholder) as [|a s] eqn:E; [|reflexivity].
  apply strip_blank in E. congruence.
Qed.

(** The resolution when the selection finds no version. *)
Lemma resolve_default (w : world) (placeholder : string) (st st1 : state)
    (installed_versions : list string) (c : string) :
  strip placeholder = EmptyString ->
  get_installed_python_versions w st = (Ok installed_versions, st1) ->
  get_latest_installed_python_version installed_versions = Ok None ->
  pyproject_toml st1 = Some c -> pyproject_writable w = true ->
  resolve_min_python w placeholder st
  = (Ok ">=3.8",
     {| pyproject_toml := Some (rsub (requires_template ">=3.8") (universal_newlines c));
        trace := (trace st1
                  ++ [EPrint warning_line;
                      ERead pyproject_path;
                      EWrite pyproject_path
                        (rsub (requires_template ">=3.8")
                           (universal_newlines c))])%list |}).
Proof.
  intros Hblank Hrun Hlatest Hc Hw.
  rewrite (resolve_blank _ _ _ _ _ Hblank Hrun).
  unfold bind at 1. unfold lift. rewrite Hlatest. cbn iota. cbn [truthy].
  exact (resolve_with_default w c st1 Hc Hw).
Qed.

(** ** The claims *)

(** C1. When some candidate matches [^3\.\d+\.\d+$],
    [get_latest_installed_python_version] returns the major.minor of the
    last matching entry, in the order of the list: that entry is
    [3.<d1>.<d2>], every entry after it fails the pattern, and the result
    is [3.<d1>], its first two dot-separated components.  The greatest
    version plays no part ([latest_not_max]). *)
Theorem latest_is_last_matching_entry (installed_versions : list string) :
  (exists v, In v installed_versions /\ re_match version_pattern v = true) ->
  exists pre v post d1 d2 e,
    installed_versions = (pre ++ v :: post)%list
    /\ re_match version_pattern v = true
    /\ (forall x, In x post -> re_match version_pattern x = false)
    /\ v = "3." ++ d1 ++ "." ++ d2 ++ e
    /\ digits d1 /\ digits d2 /\ (e = EmptyString \/ e = nl)
    /\ str_join "." (firstn 2 (str_split "." v)) = "3." ++ d1
    /\ get_latest_installed_python_version installed_versions
       = Ok (Some ("3." ++ d1)).
Proof.
  intros (v & Hin & Hm). rewrite latest_unfold.
  assert (filter (re_match version_pattern) installed_versions <> []) as Hne.
  { intros Hnil. assert (In v (filter (re_match version_pattern) installed_versions))
      as Hv by (apply filter_In; auto).
    rewrite Hnil in Hv. contradiction. }
  destruct (list_last_filter _ _ Hne) as (pre & u & post & Hl & Hu & Hpost & Hlast).
  destruct (version_match_shape _ Hu) as (d1 & d2 & e & Hshape & Hd1 & Hd2 & He).
  assert (str_join "." (firstn 2 (str_split "." u)) = "3." ++ d1) as Hmm.
  { rewrite Hshape. apply major_minor_of_shape, Hd1. }
  exists pre, u, post, d1, d2, e.
  split; [exact Hl|]. split; [exact Hu|]. split; [exact Hpost|].
  split; [exact Hshape|]. split; [exact Hd1|]. split; [exact Hd2|].
  split; [exact He|]. split; [exact Hmm|].
  destruct (filter (re_match version_pattern) installed_versions); [congruence|].
  now rewrite Hlast, Hmm.
Qed.

Lemma latest_is_last_matching_entry_witness :
  exists pre v post d1 d2 e,
    ["3.11.0"; "2.7.18"; "3.9.1"; "pypy3.9"] = (pre ++ v :: post)%list
    /\ re_match version_pattern v = true
    /\ (forall x, In x post -> re_match version_pattern x = false)
    /\ v = "3." ++ d1 ++ "." ++ d2 ++ e
    /\ digits d1 /\ digits d2 /\ (e = EmptyString \/ e = nl)
    /\ str_join "." (firstn 2 (str_split "." v)) = "3." ++ d1
    /\ get_latest_installed_python_version ["3.11.0"; "2.7.18"; "3.9.1"; "pypy3.9"]
       = Ok (Some ("3." ++ d1)).
Proof.
  apply (latest_is_last_matching_entry ["3.11.0"; "2.7.18"; "3.9.1"; "pypy3.9"]).
  exists "3.9.1". split; [simpl; auto | reflexivity].
Defined.

(** C9. [get_latest_installed_python_version] returns on every list of
    strings and never raises; its result is [None] or a string [3.<digits>],
    the first two dot-separated components of an element of the list. *)
Theorem latest_total_well_formed (installed_versions : list string) :
  exists r,
    get_latest_installed_python_version installed_versions = Ok r
    /\ (r = None
        \/ exists v d,
             In v installed_versions /\ digits d /\ r = Some ("3." ++ d)
             /\ str_join "." (firstn 2 (str_split "." v)) = "3." ++ d).
Proof.
  rewrite latest_unfold.
  destruct (filter (re_match version_pattern) installed_versions) as [|y ys] eqn:E.
  - exists None. auto.
  - destruct (list_last_filter (re_match version_pattern) installed_versions)
      as (pre & u & post & Hl & Hu & _ & Hlast); [rewrite E; discriminate|].
    rewrite E in Hlast. rewrite Hlast.
    destruct (version_match_shape _ Hu) as (d1 & d2 & e & -> & Hd1 & _ & _).
    pose proof (major_minor_of_shape d1 (d2 ++ e) (proj2 Hd1)) as Hmm.
    eexists. split; [reflexivity|]. right.
    exists ("3." ++ d1 ++ "." ++ d2 ++ e), d1. repeat split; try apply Hd1.
    + rewrite Hl. apply in_or_app. right. now left.
    + now rewrite Hmm.
    + exact Hmm.
Qed.

(** C4, as amended.  [get_installed_python_versions] returns a list
    exactly when [pyenv versions --bare] is started and what it printed
    decodes as text: the empty list on a non-zero exit, the lines of the
    stripped output otherwise.  When [pyenv] cannot be started the
    exception of the launch leaves the function, and when the output does
    not decode, [UnicodeDecodeError] does, whatever the exit status. *)
Theorem installed_versions_outcome (w : world) (st : state) :
  (forall versions st',
     get_installed_python_versions w st = (Ok versions, st')
     <-> exists returncode stdout,
           exec w ["pyenv"; "versions"; "--bare"] = Exited returncode stdout
           /\ versions = (if (returncode =? 0)%Z then splitlines (strip stdout)
                          else [])
           /\ st' = {| pyproject_toml := pyproject_toml st;
                       trace := (trace st
                                 ++ [ERun ["pyenv"; "versions"; "--bare"]])%list |})
  /\ (forall returncode stdout,
        exec w ["pyenv"; "versions"; "--bare"] = Exited returncode stdout ->
        returncode <> 0%Z ->
        fst (get_installed_python_versions w st) = Ok [])
  /\ (forall e,
        exec w ["pyenv"; "versions"; "--bare"] = LaunchError e ->
        fst (get_installed_python_versions w st) = Raise e)
  /\ (forall returncode,
        exec w ["pyenv"; "versions"; "--bare"] = Undecodable returncode ->
        fst (get_installed_python_versions w st) = Raise UnicodeDecodeError).
Proof.
  rewrite get_installed_python_versions_run. unfold after_run, pyenv_versions_argv.
  split; [|split; [|split]].
  - intros versions st'. split.
    + destruct (exec w ["pyenv"; "versions"; "--bare"]) as [e|rc|rc out];
        intros H; try discriminate H.
      injection H as <- <-. now exists rc, out.
    + intros (rc & out & -> & -> & ->). reflexivity.
  - intros rc out -> Hrc. apply Z.eqb_neq in Hrc. now rewrite Hrc.
  - now intros e ->.
  - now intros rc ->.
Qed.

(** C4, as stated, fails: with [pyenv] absent the function raises. *)
Lemma installed_versions_raises_when_absent :
  ~ (forall (w : world) (st : state),
       exists versions, fst (get_installed_python_versions w st) = Ok versions).
Proof.
  intros H.
  destruct (H (sample_world (LaunchError FileNotFoundError)) (initial None)) as [l Hl].
  discriminate Hl.
Qed.

Example installed_versions_undecodable :
  fst (get_installed_python_versions (sample_world (Undecodable 1)) (initial None))
  = Raise UnicodeDecodeError.
Proof. reflexivity. Qed.

(** C2, as amended.  With a blank placeholder and a [pyproject.toml] that
    can be read and written: when [pyenv] is started, what it printed
    decodes as text and it exits non-zero, the selected minimum version is
    [>=3.8] and the file is rewritten line by line, a line
    [requires-python = "<old>"] becoming [requires-python = ">=3.8"];
    that file is handed to [pdm use].  When [pyenv] cannot be started, or
    its output does not decode, the exception ends the run before
    anything is selected or written. *)
Theorem default_on_nonzero_exit (w : world) (placeholder : string)
    (st : state) (c : string) :
  strip placeholder = EmptyString ->
  pyproject_toml st = Some c ->
  pyproject_writable w = true ->
  match exec w ["pyenv"; "versions"; "--bare"] with
  | LaunchError e =>
      resolve_min_python w placeholder st = (Raise e, after_run st)
      /\ main w placeholder st = (Raise e, after_run st)
  | Undecodable _ =>
      resolve_min_python w placeholder st = (Raise UnicodeDecodeError, after_run st)
      /\ main w placeholder st = (Raise UnicodeDecodeError, after_run st)
  | Exited returncode _ =>
      returncode <> 0%Z ->
      exists c',
        resolve_min_python w placeholder st
        = (Ok ">=3.8",
           {| pyproject_toml := Some c';
              trace := (trace st
                        ++ [ERun ["pyenv"; "versions"; "--bare"];
                            EPrint "Warning: Could not determine latest Python version. Using default.";
                            ERead "pyproject.toml";
                            EWrite "pyproject.toml" c'])%list |})
        /\ pyproject_toml (snd (main w placeholder st))
           = match shell w "pdm use $(pyenv prefix >=3.8)/bin/python" with
             | LaunchError _ => Some c'
             | _ => shell_effect w "pdm use $(pyenv prefix >=3.8)/bin/python" (Some c')
             end
        /\ c' = str_join nl (map (line_sub ">=3.8")
                               (str_split LF (universal_newlines c)))
        /\ (forall old, no_lf old = true ->
              line_sub ">=3.8" (requires_line old) = requires_line ">=3.8")
        /\ (forall l, re_search requires_pattern l = false -> line_sub ">=3.8" l = l)
  end.
Proof.
  intros Hblank Hc Hw.
  pose proof (get_installed_python_versions_run w st) as Hrun.
  unfold pyenv_versions_argv in Hrun.
  destruct (exec w ["pyenv"; "versions"; "--bare"]) as [e|rc|rc out].
  - assert (resolve_min_python w placeholder st = (Raise e, after_run st)) as Hres.
    { unfold resolve_min_python. rewrite Hblank. cbn [truthy negb].
      unfold bind at 1. now rewrite Hrun. }
    split; [exact Hres | now apply main_raises_with_resolve].
  - assert (resolve_min_python w placeholder st
            = (Raise UnicodeDecodeError, after_run st)) as Hres.
    { unfold resolve_min_python. rewrite Hblank. cbn [truthy negb].
      unfold bind at 1. now rewrite Hrun. }
    split; [exact Hres | now apply main_raises_with_resolve].
  - intros Hrc. apply Z.eqb_neq in Hrc. rewrite Hrc in Hrun.
    pose proof (resolve_default w placeholder st (after_run st) [] c
                  Hblank Hrun eq_refl Hc Hw) as Hres.
    exists (rsub (requires_template ">=3.8") (universal_newlines c)).
    split; [|split; [|split; [|split]]].
    + rewrite Hres. unfold after_run. cbn [trace]. now rewrite <- app_assoc.
    + exact (main_file_after _ _ _ _ _ Hres).
    + now apply rsub_as_lines.
    + intros old Hold. now apply line_sub_requires_line.
    + intros l Hl. now apply line_sub_no_match.
Qed.

Lemma default_on_nonzero_exit_witness :
  exists c',
    resolve_min_python (sample_world (Exited 1 EmptyString)) " "
      (initial (Some sample_toml))
    = (Ok ">=3.8",
       {| pyproject_toml := Some c';
          trace := ([]
                    ++ [ERun ["pyenv"; "versions"; "--bare"];
                        EPrint "Warning: Could not determine latest Python version. Using default.";
                        ERead "pyproject.toml";
                        EWrite "pyproject.toml" c'])%list |})
    /\ pyproject_toml
         (snd (main (sample_world (Exited 1 EmptyString)) " "
                 (initial (Some sample_toml))))
       = Some c'
    /\ c' = str_join nl (map (line_sub ">=3.8")
                           (str_split LF (universal_newlines sample_toml)))
    /\ (forall old, no_lf old = true ->
          line_sub ">=3.8" (requires_line old) = requires_line ">=3.8")
    /\ (forall l, re_search requires_pattern l = false -> line_sub ">=3.8" l = l).
Proof.
  exact (default_on_nonzero_exit (sample_world (Exited 1 EmptyString)) " "
           (initial (Some sample_toml)) sample_toml eq_refl eq_refl eq_refl
           ltac:(discriminate)).
Defined.

Example undecodable_output_ends_run :
  main (sample_world (Undecodable 1)) EmptyString (initial (Some sample_toml))
  = (Raise UnicodeDecodeError,
     {| pyproject_toml := Some sample_toml;
        trace := [ERun ["pyenv"; "versions"; "--bare"]] |}).
Proof. reflexivity. Qed.

Example default_on_nonzero_exit_file :
  pyproject_toml
    (snd (main (sample_world (Exited 1 EmptyString)) " " (initial (Some sample_toml))))
  = Some ("[project]" ++ nl ++ "name = " ++ dq ++ "x" ++ dq ++ nl
          ++ "requires-python = " ++ dq ++ ">=3.8" ++ dq ++ nl
          ++ "license = {text = " ++ dq ++ "MIT" ++ dq ++ "}" ++ nl).
Proof. reflexivity. Qed.

(** C2, as stated, fails: with [pyenv] absent no default is selected and
    nothing is written. *)
Lemma default_not_selected_when_pyenv_absent :
  ~ (forall (w : world) (placeholder : string) (st : state) (c : string),
       strip placeholder = EmptyString ->
       pyproject_toml st = Some c ->
       pyproject_writable w = true ->
       (exec w ["pyenv"; "versions"; "--bare"] = LaunchError FileNotFoundError
        \/ exists returncode stdout,
             exec w ["pyenv"; "versions"; "--bare"] = Exited returncode stdout
             /\ returncode <> 0%Z) ->
       fst (resolve_min_python w placeholder st) = Ok ">=3.8"
       /\ exists c', pyproject_toml (snd (resolve_min_python w placeholder st))
                     = Some c'
                     /\ line_sub ">=3.8" c' = c').
Proof.
  intros H.
  destruct (H (sample_world (LaunchError FileNotFoundError)) EmptyString
              (initial (Some sample_toml))
              sample_toml eq_refl eq_refl eq_refl (or_introl eq_refl)) as [Hsel _].
  vm_compute in Hsel. discriminate Hsel.
Qed.

(** C6. When no candidate matches [^3\.\d+\.\d+$],
    [get_latest_installed_python_version] returns [None], on every list;
    and [main], with a blank placeholder and that list from [pyenv], goes
    on with the warning and the patch for [>=3.8]: with a
    [pyproject.toml] that can be read and written the file is rewritten
    line by line, a line [requires-python = "<old>"] becoming
    [requires-python = ">=3.8"]. *)
Theorem no_candidate_takes_default (installed_versions : list string) :
  (forall v, In v installed_versions -> re_match version_pattern v = false) ->
  get_latest_installed_python_version installed_versions = Ok None
  /\ forall (w : world) (placeholder : string) (st st1 : state),
       strip placeholder = EmptyString ->
       get_installed_python_versions w st = (Ok installed_versions, st1) ->
       resolve_min_python w placeholder st
       = (print "Warning: Could not determine latest Python version. Using default." ;;
          update_pyproject_toml w ">=3.8" ;;
          ret ">=3.8") st1
       /\ forall c,
            pyproject_toml st1 = Some c -> pyproject_writable w = true ->
            exists c',
              resolve_min_python w placeholder st
              = (Ok ">=3.8",
                 {| pyproject_toml := Some c';
                    trace := (trace st1
                              ++ [EPrint "Warning: Could not determine latest Python version. Using default.";
                                  ERead "pyproject.toml";
                                  EWrite "pyproject.toml" c'])%list |})
              /\ pyproject_toml (snd (main w placeholder st))
                 = match shell w "pdm use $(pyenv prefix >=3.8)/bin/python" with
                   | LaunchError _ => Some c'
                   | _ => shell_effect w "pdm use $(pyenv prefix >=3.8)/bin/python"
                            (Some c')
                   end
              /\ c' = str_join nl (map (line_sub ">=3.8")
                                     (str_split LF (universal_newlines c)))
              /\ (forall old, no_lf old = true ->
                    line_sub ">=3.8" (requires_line old) = requires_line ">=3.8")
              /\ (forall l, re_search requires_pattern l = false ->
                    line_sub ">=3.8" l = l).
Proof.
  intros Hnone.
  assert (get_latest_installed_python_version installed_versions = Ok None) as Hlatest.
  { rewrite latest_unfold. now rewrite (filter_none _ _ Hnone). }
  split; [exact Hlatest|].
  intros w placeholder st st1 Hblank Hrun. split.
  - rewrite (resolve_blank _ _ _ _ _ Hblank Hrun).
    unfold bind at 1. unfold lift. now rewrite Hlatest.
  - intros c Hc Hw.
    pose proof (resolve_default w placeholder st st1 installed_versions c
                  Hblank Hrun Hlatest Hc Hw) as Hres.
    exists (rsub (requires_template ">=3.8") (universal_newlines c)).
    split; [exact Hres|]. split; [exact (main_file_after _ _ _ _ _ Hres)|].
    split; [now apply rsub_as_lines|]. split.
    + intros old Hold. now apply line_sub_requires_line.
    + intros l Hl. now apply line_sub_no_match.
Qed.

Lemma no_candidate_takes_default_witness :
  get_latest_installed_python_version ["2.7.18"; "3.x-dev"; "system"] = Ok None
  /\ resolve_min_python
       (sample_world (Exited 0 ("2.7.18" ++ nl ++ "3.x-dev" ++ nl ++ "system" ++ nl)))
       EmptyString (initial (Some sample_toml))
     = (print "Warning: Could not determine latest Python version. Using default." ;;
        update_pyproject_toml
          (sample_world (Exited 0 ("2.7.18" ++ nl ++ "3.x-dev" ++ nl ++ "system" ++ nl)))
          ">=3.8" ;;
        ret ">=3.8") (after_run (initial (Some sample_toml))).
Proof.
  assert (forall v, In v ["2.7.18"; "3.x-dev"; "system"] ->
                    re_match version_pattern v = false) as Hnone.
  { intros v [<-|[<-|[<-|[]]]]; reflexivity. }
  destruct (no_candidate_takes_default ["2.7.18"; "3.x-dev"; "system"] Hnone)
    as [H1 H2].
  split; [exact H1|].
  exact (proj1 (H2 (sample_world
                      (Exited 0 ("2.7.18" ++ nl ++ "3.x-dev" ++ nl ++ "system" ++ nl)))
                  EmptyString (initial (Some sample_toml))
                  (after_run (initial (Some sample_toml))) eq_refl eq_refl)).
Defined.

Example no_candidate_file :
  pyproject_toml
    (snd (main (sample_world (Exited 0 ("2.7.18" ++ nl ++ "3.x-dev" ++ nl ++ "system" ++ nl)))
            EmptyString (initial (Some sample_toml))))
  = Some ("[project]" ++ nl ++ "name = " ++ dq ++ "x" ++ dq ++ nl
          ++ "requires-python = " ++ dq ++ ">=3.8" ++ dq ++ nl
          ++ "license = {text = " ++ dq ++ "MIT" ++ dq ++ "}" ++ nl).
Proof. reflexivity. Qed.

(** C8. With the installed versions 3.9.1, 3.10.4, 3.11.0 and a blank
    placeholder the selected constraint is [>=3.11]; the file is rewritten
    line by line, a line [requires-python = "<old>"] becomes
    [requires-python = ">=3.11"], and that is the file handed to
    [pdm use] and, when that command leaves the file alone, the file
    [main] leaves. *)
Theorem scenario_three_versions (w : world) (placeholder : string)
    (st st1 : state) (c : string) :
  strip placeholder = EmptyString ->
  get_installed_python_versions w st = (Ok ["3.9.1"; "3.10.4"; "3.11.0"], st1) ->
  pyproject_toml st1 = Some c ->
  pyproject_writable w = true ->
  exists c',
    resolve_min_python w placeholder st
    = (Ok ">=3.11",
       {| pyproject_toml := Some c';
          trace := (trace st1 ++ [EPrint "Using latest installed Python version: >=3.11";
                                  ERead pyproject_path;
                                  EWrite pyproject_path c'])%list |})
    /\ pyproject_toml (snd (main w placeholder st))
       = match shell w "pdm use $(pyenv prefix >=3.11)/bin/python" with
         | LaunchError _ => Some c'
         | _ => shell_effect w "pdm use $(pyenv prefix >=3.11)/bin/python" (Some c')
         end
    /\ c' = str_join nl (map (line_sub ">=3.11") (str_split LF (universal_newlines c)))
    /\ (forall old, no_lf old = true ->
          line_sub ">=3.11" (requires_line old) = requires_line ">=3.11")
    /\ (forall l, re_search requires_pattern l = false -> line_sub ">=3.11" l = l).
Proof.
  intros Hblank Hrun Hc Hw.
  assert (resolve_min_python w placeholder st
          = (Ok ">=3.11",
             {| pyproject_toml := Some (rsub (requires_template ">=3.11")
                                          (universal_newlines c));
                trace := (trace st1
                          ++ [EPrint "Using latest installed Python version: >=3.11";
                              ERead pyproject_path;
                              EWrite pyproject_path
                                (rsub (requires_template ">=3.11")
                                   (universal_newlines c))])%list |}))
    as Hres.
  { rewrite (resolve_blank _ _ _ _ _ Hblank Hrun).
    unfold bind at 1. unfold lift.
    change (get_latest_installed_python_version ["3.9.1"; "3.10.4"; "3.11.0"])
      with (@Ok (option string) (Some "3.11")).
    cbn iota. cbn [truthy str_of].
    exact (resolve_with_version w ">=3.11" c st1 eq_refl Hc Hw). }
  exists (rsub (requires_template ">=3.11") (universal_newlines c)).
  split; [exact Hres|]. split; [exact (main_file_after _ _ _ _ _ Hres)|].
  split; [now apply rsub_as_lines|]. split.
  - intros old Hold. now apply line_sub_requires_line.
  - intros l Hl. now apply line_sub_no_match.
Qed.

Lemma scenario_three_versions_witness :
  exists c',
    resolve_min_python
      (sample_world (Exited 0 ("3.9.1" ++ nl ++ "3.10.4" ++ nl ++ "3.11.0" ++ nl)))
      EmptyString (initial (Some sample_toml))
    = (Ok ">=3.11",
       {| pyproject_toml := Some c';
          trace := (trace (after_run (initial (Some sample_toml)))
                    ++ [EPrint "Using latest installed Python version: >=3.11";
                        ERead pyproject_path;
                        EWrite pyproject_path c'])%list |})
    /\ pyproject_toml
         (snd (main
                 (sample_world (Exited 0 ("3.9.1" ++ nl ++ "3.10.4" ++ nl ++ "3.11.0" ++ nl)))
                 EmptyString (initial (Some sample_toml))))
       = Some c'
    /\ c' = str_join nl (map (line_sub ">=3.11")
                           (str_split LF (universal_newlines sample_toml)))
    /\ (forall old, no_lf old = true ->
          line_sub ">=3.11" (requires_line old) = requires_line ">=3.11")
    /\ (forall l, re_search requires_pattern l = false -> line_sub ">=3.11" l = l).
Proof.
  exact (scenario_three_versions
           (sample_world (Exited 0 ("3.9.1" ++ nl ++ "3.10.4" ++ nl ++ "3.11.0" ++ nl)))
           EmptyString (initial (Some sample_toml))
           (after_run (initial (Some sample_toml))) sample_toml
           eq_refl eq_refl eq_refl eq_refl).
Defined.

Example scenario_three_versions_file :
  pyproject_toml
    (snd (main (sample_world (Exited 0 ("3.9.1" ++ nl ++ "3.10.4" ++ nl ++ "3.11.0" ++ nl)))
            EmptyString (initial (Some sample_toml))))
  = Some ("[project]" ++ nl ++ "name = " ++ dq ++ "x" ++ dq ++ nl
          ++ requires_line ">=3.11" ++ nl
          ++ "license = {text = " ++ dq ++ "MIT" ++ dq ++ "}" ++ nl).
Proof. reflexivity. Qed.

(** The same file with CR LF line endings: the assignment is rewritten,
    and text mode leaves every line ending a line feed. *)
Example scenario_three_versions_crlf_file :
  pyproject_toml
    (snd (main (sample_world (Exited 0 ("3.9.1" ++ nl ++ "3.10.4" ++ nl ++ "3.11.0" ++ nl)))
            EmptyString
            (initial (Some ("[project]" ++ String CR nl
                            ++ requires_line ">=3.7" ++ String CR nl)))))
  = Some ("[project]" ++ nl ++ requires_line ">=3.11" ++ nl).
Proof. reflexivity. Qed.

(** C3, as amended.  [update_pyproject_toml] replaces every occurrence of
    the pattern, not the first one only.  The file is read in text mode,
    which makes every line ending a line feed (a text without carriage
    return is read as it is, and a carriage return, with the line feed
    that follows it if there is one, is read as a line feed); the new
    file is the lines of the text read, each patched on its own, joined
    by line feeds.  A line in which the
    pattern does not occur is unchanged.  For a version without
    backslash, a line that holds the pattern has the text from the first
    position at which the pattern matches to the last double quote of the
    line replaced by [requires-python = "<version>"]; so a line
    [requires-python = "<old>"] becomes that text. *)
Theorem patch_rewrites_every_matching_line (w : world) (python_version c : string)
    (st st' : state) :
  pyproject_toml st = Some c ->
  update_pyproject_toml w python_version st = (Ok tt, st') ->
  pyproject_toml st'
  = Some (str_join nl (map (line_sub python_version)
                         (str_split LF (universal_newlines c))))
  /\ (forall s, no_cr s = true -> universal_newlines s = s)
  /\ (forall x y,
        universal_newlines (x ++ String CR (String LF y))
        = universal_newlines x ++ String LF (universal_newlines y))
  /\ (forall x y,
        (forall r, y <> String LF r) ->
        universal_newlines (x ++ String CR y)
        = universal_newlines x ++ String LF (universal_newlines y))
  /\ (forall l, re_search requires_pattern l = false -> line_sub python_version l = l)
  /\ (no_backslash python_version = true ->
      forall l, no_lf l = true -> re_search requires_pattern l = true ->
        exists b old y,
          l = b ++ requires_line old ++ y
          /\ (forall k, k < String.length b ->
                match_len requires_pattern false (drop k l) = None)
          /\ count_char DQUOTE y = 0
          /\ line_sub python_version l = b ++ requires_line python_version ++ y)
  /\ (no_backslash python_version = true ->
      forall old, no_lf old = true ->
        line_sub python_version (requires_line old) = requires_line python_version).
Proof.
  intros Hc H. split; [|split; [|split; [|split; [|split; [|split]]]]].
  - rewrite update_pyproject_toml_run, Hc in H.
    destruct (updated_content python_version (universal_newlines c)) as [c'|e] eqn:E;
      [|discriminate H].
    destruct (pyproject_writable w); [|discriminate H].
    injection H as <-. cbn [pyproject_toml]. f_equal.
    now apply updated_content_lines.
  - apply universal_newlines_id.
  - apply universal_newlines_cr_lf.
  - apply universal_newlines_cr.
  - intros l Hl. now apply line_sub_no_match.
  - intros Hv l Hl Hs. now apply line_sub_occurrence.
  - intros Hv old Hold. now apply line_sub_requires_line.
Qed.

Lemma patch_rewrites_every_matching_line_witness :
  pyproject_toml
    (snd (update_pyproject_toml (sample_world (Exited 0 EmptyString)) ">=3.8"
            (initial (Some two_assignments))))
  = Some (str_join nl (map (line_sub ">=3.8")
                         (str_split LF (universal_newlines two_assignments)))).
Proof.
  exact (proj1 (patch_rewrites_every_matching_line
                  (sample_world (Exited 0 EmptyString)) ">=3.8" two_assignments
                  (initial (Some two_assignments))
                  (snd (update_pyproject_toml (sample_world (Exited 0 EmptyString))
                          ">=3.8" (initial (Some two_assignments))))
                  eq_refl eq_refl)).
Defined.

(** C3, as stated, fails: the patch does not stop after the first
    occurrence; of two lines that carry the assignment both are
    rewritten. *)
Lemma patch_not_first_only :
  ~ (forall python_version c : string,
       updated_content python_version c = updated_content_first python_version c).
Proof.
  intros H. specialize (H ">=3.8" two_assignments).
  vm_compute in H. discriminate H.
Qed.

Example patch_first_only_two_assignments :
  updated_content ">=3.8" two_assignments
  = Ok (requires_line ">=3.8" ++ nl ++ requires_line ">=3.8")
  /\ updated_content_first ">=3.8" two_assignments
     = Ok (requires_line ">=3.8" ++ nl ++ requires_line "b").
Proof. split; reflexivity. Qed.

(** In a file with CR LF line endings the lines in which the pattern
    does not occur lose their carriage return. *)
Example patch_crlf_file :
  pyproject_toml
    (snd (update_pyproject_toml (sample_world (Exited 0 EmptyString)) ">=3.8"
            (initial (Some ("name = x" ++ String CR nl
                            ++ requires_line "old" ++ String CR nl)))))
  = Some ("name = x" ++ nl ++ requires_line ">=3.8" ++ nl).
Proof. reflexivity. Qed.

(** C5. When the resolution of the minimum version has returned and
    [pdm use] exits non-zero, [main] ends with [CalledProcessError]: the
    two last prints do not happen and the exit status is not zero. *)
Theorem pdm_use_failure_is_fatal (w : world) (placeholder min_python : string)
    (st st1 : state) (returncode : Z) (stdout : string) :
  resolve_min_python w placeholder st = (Ok min_python, st1) ->
  shell w ("pdm use $(pyenv prefix " ++ min_python ++ ")/bin/python")
  = Exited returncode stdout ->
  returncode <> 0%Z ->
  main w placeholder st
  = (Raise (CalledProcessError returncode),
     {| pyproject_toml :=
          shell_effect w ("pdm use $(pyenv prefix " ++ min_python ++ ")/bin/python")
            (pyproject_toml st1);
        trace := (trace st1
                  ++ [EShell ("pdm use $(pyenv prefix " ++ min_python
                              ++ ")/bin/python")])%list |})
  /\ exit_status (fst (main w placeholder st)) <> 0%Z.
Proof.
  intros Hres Hsh Hrc. apply Z.eqb_neq in Hrc.
  change ("pdm use $(pyenv prefix " ++ min_python ++ ")/bin/python")
    with (pdm_use_cmd min_python) in *.
  assert (main w placeholder st
          = (Raise (CalledProcessError returncode),
             {| pyproject_toml := shell_effect w (pdm_use_cmd min_python)
                                    (pyproject_toml st1);
                trace := (trace st1 ++ [EShell (pdm_use_cmd min_python)])%list |}))
    as Hmain.
  { unfold main. unfold bind at 1. rewrite Hres.
    unfold bind at 1. rewrite shell_check_run, Hsh, Hrc. reflexivity. }
  split; [exact Hmain|]. rewrite Hmain. discriminate.
Qed.

Lemma pdm_use_failure_is_fatal_witness :
  main (failing_shell_world (LaunchError FileNotFoundError) 1) "3.10"
    (initial (Some sample_toml))
  = (Raise (CalledProcessError 1),
     {| pyproject_toml := Some sample_toml;
        trace := ([] ++ [EShell "pdm use $(pyenv prefix 3.10)/bin/python"])%list |})
  /\ exit_status
       (fst (main (failing_shell_world (LaunchError FileNotFoundError) 1) "3.10"
               (initial (Some sample_toml))))
     <> 0%Z.
Proof.
  exact (pdm_use_failure_is_fatal
           (failing_shell_world (LaunchError FileNotFoundError) 1)
           "3.10" "3.10" (initial (Some sample_toml)) (initial (Some sample_toml))
           1%Z EmptyString eq_refl eq_refl ltac:(discriminate)).
Defined.

(** C7, as amended.  For a target version without backslash and without
    carriage return, and without line feed or without double quote,
    applying [update_pyproject_toml] twice leaves the file as the first
    application left it, the lines of the text read, each patched on its
    own, a text without carriage return that is read back as it is; on
    the text itself the patch is idempotent. *)
Theorem patch_idempotent (w : world) (python_version : string) (st : state) :
  no_backslash python_version = true ->
  no_cr python_version = true ->
  no_lf python_version = true \/ no_dquote python_version = true ->
  pyproject_toml
    (snd (update_pyproject_toml w python_version
            (snd (update_pyproject_toml w python_version st))))
  = pyproject_toml (snd (update_pyproject_toml w python_version st))
  /\ (forall c,
        pyproject_toml st = Some c -> pyproject_writable w = true ->
        exists c1,
          pyproject_toml (snd (update_pyproject_toml w python_version st)) = Some c1
          /\ c1 = str_join nl (map (line_sub python_version)
                                 (str_split LF (universal_newlines c)))
          /\ no_cr c1 = true /\ universal_newlines c1 = c1)
  /\ (forall old, no_lf old = true ->
        line_sub python_version (requires_line old) = requires_line python_version)
  /\ (forall c, exists c1,
        updated_content python_version c = Ok c1
        /\ updated_content python_version c1 = Ok c1).
Proof.
  intros Hbs Hcr Hv.
  assert (forall c, exists c1,
            updated_content python_version c = Ok c1
            /\ updated_content python_version c1 = Ok c1) as Htext.
  { intros c. exists (rsub (requires_template python_version) c).
    rewrite !updated_content_literal by assumption.
    split; [reflexivity|]. now rewrite rsub_idem_gen. }
  split; [|split; [|split; [|exact Htext]]].
  - rewrite (update_pyproject_toml_run w python_version st).
    destruct (pyproject_toml st) as [c|] eqn:Ec.
    + rewrite (updated_content_literal _ _ Hbs).
      destruct (pyproject_writable w) eqn:Ew; cbn [snd].
      * rewrite update_pyproject_toml_run. cbn [pyproject_toml].
        rewrite (universal_newlines_rsub _ _ Hcr).
        rewrite (updated_content_literal _ _ Hbs), Ew. cbn [snd pyproject_toml].
        now rewrite (rsub_idem_gen _ _ Hv).
      * rewrite update_pyproject_toml_run. unfold after_read at 1 3.
        cbn [pyproject_toml].
        rewrite Ec, (updated_content_literal _ _ Hbs), Ew. reflexivity.
    + cbn [snd]. rewrite update_pyproject_toml_run, Ec. exact Ec.
  - intros c Hc Hw.
    exists (rsub (requires_template python_version) (universal_newlines c)).
    rewrite update_pyproject_toml_run, Hc, (updated_content_literal _ _ Hbs), Hw.
    cbn [snd pyproject_toml]. split; [reflexivity|].
    split; [now apply rsub_as_lines|].
    pose proof (universal_newlines_rsub python_version c Hcr) as Hun.
    split; [|exact Hun]. rewrite <- Hun. apply universal_newlines_no_cr.
  - intros old Hold. now apply line_sub_requires_line.
Qed.

Lemma patch_idempotent_witness :
  pyproject_toml
    (snd (update_pyproject_toml (sample_world (Exited 0 EmptyString)) ">=3.11"
            (snd (update_pyproject_toml (sample_world (Exited 0 EmptyString)) ">=3.11"
                    (initial (Some sample_toml))))))
  = pyproject_toml
      (snd (update_pyproject_toml (sample_world (Exited 0 EmptyString)) ">=3.11"
              (initial (Some sample_toml)))).
Proof.
  exact (proj1 (patch_idempotent (sample_world (Exited 0 EmptyString)) ">=3.11"
                  (initial (Some sample_toml)) eq_refl eq_refl (or_introl eq_refl))).
Defined.

(** C7, as stated, fails: a version that carries a quote, a line feed and
    the assignment prefix makes two matching lines out of one, and the
    second application replaces each of them by both. *)
Lemma patch_not_idempotent :
  ~ (forall (w : world) (python_version : string) (st : state),
       pyproject_toml
         (snd (update_pyproject_toml w python_version
                 (snd (update_pyproject_toml w python_version st))))
       = pyproject_toml (snd (update_pyproject_toml w python_version st))).
Proof.
  intros H.
  specialize (H (sample_world (Exited 0 EmptyString)) splitting_version
                (initial (Some (requires_line "x")))).
  vm_compute in H. discriminate H.
Qed.

Example patch_twice_splitting_version :
  updated_content splitting_version (requires_line "x")
  = Ok (requires_line EmptyString ++ nl ++ requires_line EmptyString)
  /\ updated_content splitting_version
       (requires_line EmptyString ++ nl ++ requires_line EmptyString)
     = Ok (requires_line EmptyString ++ nl ++ requires_line EmptyString ++ nl
           ++ requires_line EmptyString ++ nl ++ requires_line EmptyString).
Proof. split; reflexivity. Qed.

(** A version with a line feed and no double quote: the patched line is
    broken in two, neither of which holds the pattern again. *)
Example patch_twice_line_feed_version :
  updated_content ("a" ++ nl ++ "b") (requires_line "x")
  = Ok (requires_line ("a" ++ nl ++ "b"))
  /\ updated_content ("a" ++ nl ++ "b") (requires_line ("a" ++ nl ++ "b"))
     = Ok (requires_line ("a" ++ nl ++ "b")).
Proof. split; reflexivity. Qed.

(** With a backslash the replacement is a template: [\g<0>] puts the old
    match inside the new one, and each application nests it once more. *)
Example patch_twice_group_reference :
  updated_content "\g<0>" (requires_line "x")
  = Ok (requires_line (requires_line "x"))
  /\ updated_content "\g<0>" (requires_line (requires_line "x"))
     = Ok (requires_line (requires_line (requires_line "x"))).
Proof. split; reflexivity. Qed.

(** With a carriage return in the version the file the first application
    wrote is read back with a line feed in its place: the second
    application finds the assignment on a line of its own again, and the
    file grows. *)
Example patch_twice_carriage_return :
  pyproject_toml
    (snd (update_pyproject_toml (sample_world (Exited 0 EmptyString))
            ("x" ++ dq ++ String CR "y") (initial (Some (requires_line "old")))))
  = Some (requires_line ("x" ++ dq ++ String CR "y"))
  /\ pyproject_toml
       (snd (update_pyproject_toml (sample_world (Exited 0 EmptyString))
               ("x" ++ dq ++ String CR "y")
               (snd (update_pyproject_toml (sample_world (Exited 0 EmptyString))
                       ("x" ++ dq ++ String CR "y")
                       (initial (Some (requires_line "old")))))))
     = Some (requires_line ("x" ++ dq ++ String CR "y") ++ nl ++ "y" ++ dq).
Proof. split; reflexivity. Qed.

(** C10, as amended.  The placeholder text is pasted into the string
    literal of line 48.  When the text stays one literal whose value
    holds a character other than white space, the version is that value
    and [main] is the [pdm use] step and the two prints: [pyenv versions]
    is not run, [update_pyproject_toml] is not called, and the script
    itself neither reads nor writes [pyproject.toml]; the command line is
    [pdm use $(pyenv prefix <value>)/bin/python], and the file is what
    that command line leaves of it. *)
Theorem explicit_placeholder_skips_discovery (w : world)
    (placeholder_text min_python : string) (st : state) :
  py_literal placeholder_text = LitValue min_python ->
  all_chars is_space min_python = false ->
  hook w placeholder_text = Some (main w min_python)
  /\ resolve_min_python w min_python st = (Ok min_python, st)
  /\ main w min_python st
     = (subprocess_run_shell_check w
          ("pdm use $(pyenv prefix " ++ min_python ++ ")/bin/python") ;;
        print ("Using Python version specified in pyproject.toml: " ++ min_python) ;;
        print "Project setup complete!") st
  /\ exists r file rest,
       main w min_python st
       = (r, {| pyproject_toml := file;
                trace := (trace st
                          ++ EShell ("pdm use $(pyenv prefix " ++ min_python
                                     ++ ")/bin/python") :: rest)%list |})
       /\ forallb is_print rest = true
       /\ file = match shell w ("pdm use $(pyenv prefix " ++ min_python
                                ++ ")/bin/python") with
                 | LaunchError _ => pyproject_toml st
                 | _ => shell_effect w
                          ("pdm use $(pyenv prefix " ++ min_python ++ ")/bin/python")
                          (pyproject_toml st)
                 end.
Proof.
  intros Hlit Hns.
  pose proof (resolve_nonblank w min_python st Hns) as Hres.
  split; [unfold hook; now rewrite Hlit|].
  split; [exact Hres|].
  split; [unfold main; unfold bind at 1; now rewrite Hres|].
  unfold main. unfold bind at 1. rewrite Hres.
  unfold bind at 1. rewrite shell_check_run.
  change (pdm_use_cmd min_python)
    with ("pdm use $(pyenv prefix " ++ min_python ++ ")/bin/python").
  destruct (shell w ("pdm use $(pyenv prefix " ++ min_python ++ ")/bin/python"))
    as [e|rc|rc out].
  - exists (Raise e), (pyproject_toml st), []. repeat split; reflexivity.
  - destruct (rc =? 0)%Z.
    + eexists (Ok tt), _,
        [EPrint ("Using Python version specified in pyproject.toml: " ++ min_python);
         EPrint "Project setup complete!"].
      split; [|split; reflexivity].
      unfold ret, bind, print, emit. cbn [trace pyproject_toml].
      now rewrite <- !app_assoc.
    + eexists (Raise (CalledProcessError rc)), _, []. repeat split; reflexivity.
  - destruct (rc =? 0)%Z.
    + eexists (Ok tt), _,
        [EPrint ("Using Python version specified in pyproject.toml: " ++ min_python);
         EPrint "Project setup complete!"].
      split; [|split; reflexivity].
      unfold ret, bind, print, emit. cbn [trace pyproject_toml].
      now rewrite <- !app_assoc.
    + eexists (Raise (CalledProcessError rc)), _, []. repeat split; reflexivity.
Qed.

Lemma explicit_placeholder_skips_discovery_witness :
  hook (sample_world (LaunchError FileNotFoundError)) " 3.1\x30 "
  = Some (main (sample_world (LaunchError FileNotFoundError)) " 3.10 ")
  /\ resolve_min_python (sample_world (LaunchError FileNotFoundError)) " 3.10 "
       (initial (Some sample_toml))
     = (Ok " 3.10 ", initial (Some sample_toml)).
Proof.
  pose proof (explicit_placeholder_skips_discovery
                (sample_world (LaunchError FileNotFoundError)) " 3.1\x30 " " 3.10 "
                (initial (Some sample_toml)) eq_refl eq_refl) as (H1 & H2 & _).
  split; [exact H1 | exact H2].
Defined.

(** C10, as stated, fails: the placeholder text [\t], a backslash and
    the letter t, holds no white space, but the literal it is pasted into
    has a tabulation for value; the discovery runs and the file is
    rewritten, in a world where the shell leaves the file alone. *)
Lemma escaped_tab_placeholder_runs_discovery :
  ~ (forall (w : world) (placeholder_text : string) (m : M unit) (st : state),
       (forall cmd file, shell_effect w cmd file = file) ->
       all_chars is_space placeholder_text = false ->
       hook w placeholder_text = Some m ->
       pyproject_toml (snd (m st)) = pyproject_toml st
       /\ forallb (fun e => is_shell e || is_print e) (trace (snd (m st))) = true).
Proof.
  intros H.
  destruct (H (sample_world (Exited 0 ("3.9.1" ++ nl))) "\t"
              (main (sample_world (Exited 0 ("3.9.1" ++ nl)))
                 (String (chr 9) EmptyString))
              (initial (Some sample_toml))
              (fun _ _ => eq_refl) eq_refl eq_refl) as [Hfile _].
  vm_compute in Hfile. discriminate Hfile.
Qed.

Example escaped_tab_placeholder_run :
  fst (resolve_min_python (sample_world (Exited 0 ("3.9.1" ++ nl)))
         (String (chr 9) EmptyString) (initial (Some sample_toml)))
  = Ok ">=3.9"
  /\ py_literal "\t" = LitValue (String (chr 9) EmptyString)
  /\ all_chars is_space "\t" = false.
Proof. repeat split; reflexivity. Qed.

(** A placeholder text with a line feed in it leaves the literal of
    line 48 open: the script does not run. *)
Example line_feed_placeholder_is_syntax_error (w : world) :
  hook w (" " ++ nl) = Some (raise SyntaxError).
Proof. reflexivity. Qed.

(** ** More on the version pattern and the selection *)

Lemma star_k_some (c : cls) (k : bool -> string -> option nat)
    (x y : string) (bos : bool) :
  all_chars (cls_match c) x = true ->
  (forall b, k b y <> None) ->
  star_k c k bos (x ++ y) <> None.
Proof.
  intros Hx Hk. revert bos. induction x as [|a x IH]; intros bos.
  - cbn [append]. destruct y as [|b y]; cbn [star_k]; [apply Hk|].
    destruct (cls_match c b); [|apply Hk].
    destruct (star_k c k false y); [discriminate | apply Hk].
  - cbn [all_chars] in Hx. apply andb_true_iff in Hx as [Ha Hx].
    cbn [append star_k]. rewrite Ha.
    specialize (IH Hx false).
    destruct (star_k c k false (x ++ y)); [discriminate | contradiction].
Qed.

Lemma plus_some (c : cls) (p : regex) (x y : string) (bos : bool) :
  x <> EmptyString ->
  all_chars (cls_match c) x = true ->
  (forall b, match_len p b y <> None) ->
  match_len (APlus c :: p) bos (x ++ y) <> None.
Proof.
  intros Hne Hx Hk. destruct x as [|a x]; [contradiction|].
  cbn [all_chars] in Hx. apply andb_true_iff in Hx as [Ha Hx].
  cbn [append match_len]. rewrite Ha.
  pose proof (star_k_some c (match_len p) x y false Hx Hk) as Hs.
  destruct (star_k c (match_len p) false (x ++ y)); [discriminate | contradiction].
Qed.

Lemma match_len_one_char (a : ascii) (p : regex) (bos : bool) (y : string) :
  match_len (AOne (CChar a) :: p) bos (String a y)
  = option_map S (match_len p false y).
Proof.
  change (match_len (AOne (CChar a) :: p) bos (String a y))
    with (if cls_match (CChar a) a
          then option_map S (match_len p false y) else None).
  cbn [cls_match]. now rewrite Ascii.eqb_refl.
Qed.

Lemma match_len_bol (p : regex) (s : string) :
  match_len (ABol :: p) true s = match_len p true s.
Proof. reflexivity. Qed.

Lemma version_shape_matches (d1 d2 e : string) :
  digits d1 -> digits d2 -> e = EmptyString \/ e = nl ->
  re_match version_pattern ("3." ++ d1 ++ "." ++ d2 ++ e) = true.
Proof.
  intros [Hn1 Hd1] [Hn2 Hd2] He. unfold re_match.
  assert (forall b, match_len [AEol] b e <> None) as Heol.
  { intros b. destruct He as [->| ->]; discriminate. }
  assert (forall b, match_len [APlus CDigit; AEol] b (d2 ++ e) <> None) as H2.
  { intros b. now apply plus_some. }
  assert (forall b, match_len [AOne (CChar "."); APlus CDigit; AEol] b
                      ("." ++ d2 ++ e) <> None) as H3.
  { intros b. change ("." ++ d2 ++ e) with (String "." (d2 ++ e)).
    rewrite match_len_one_char. specialize (H2 false).
    destruct (match_len [APlus CDigit; AEol] false (d2 ++ e));
      [discriminate | contradiction]. }
  pose proof (plus_some CDigit _ d1 ("." ++ d2 ++ e) false Hn1 Hd1 H3) as H4.
  unfold version_pattern.
  change ("3." ++ d1 ++ "." ++ d2 ++ e)
    with (String "3" (String "." (d1 ++ "." ++ d2 ++ e))).
  rewrite match_len_bol, !match_len_one_char.
  destruct (match_len (APlus CDigit :: _) false (d1 ++ "." ++ d2 ++ e));
    [reflexivity | contradiction].
Qed.

(** X1. The strings the version pattern accepts are exactly [3.], digits,
    a dot, digits, and then nothing or one final line feed. *)
Theorem version_pattern_accepts_exactly (v : string) :
  re_match version_pattern v = true
  <-> exists d1 d2 e,
        v = "3." ++ d1 ++ "." ++ d2 ++ e /\ digits d1 /\ digits d2
        /\ (e = EmptyString \/ e = nl).
Proof.
  split.
  - apply version_match_shape.
  - intros (d1 & d2 & e & -> & H1 & H2 & He). now apply version_shape_matches.
Qed.

Lemma list_last_cons {A : Type} (x : A) (l : list A) :
  l <> [] -> list_last (x :: l) = list_last l.
Proof. destruct l; [contradiction | reflexivity]. Qed.

Lemma list_last_app {A : Type} (xs : list A) (y : A) (ys : list A) :
  list_last (xs ++ y :: ys)%list = list_last (y :: ys).
Proof.
  induction xs as [|x xs IH]; [reflexivity|].
  cbn [app]. rewrite list_last_cons; [exact IH|].
  now destruct xs.
Qed.

(** X2. The selection on a concatenation: the second part decides when
    it holds a matching entry, otherwise the first part does. *)
Theorem latest_of_concatenation (l1 l2 : list string) :
  get_latest_installed_python_version (l1 ++ l2)
  = match get_latest_installed_python_version l2 with
    | Ok None => get_latest_installed_python_version l1
    | r => r
    end.
Proof.
  rewrite !latest_unfold, filter_app.
  destruct (filter (re_match version_pattern) l2) as [|y ys] eqn:E2.
  - rewrite app_nil_r. reflexivity.
  - destruct (filter (re_match version_pattern) l1 ++ y :: ys)%list eqn:E;
      [now destruct (filter (re_match version_pattern) l1)|].
    rewrite <- E, list_last_app.
    destruct (list_last_filter (re_match version_pattern) l2)
      as (pre & u & post & _ & _ & _ & Hlast); [rewrite E2; discriminate|].
    rewrite E2 in Hlast. rewrite Hlast. reflexivity.
Qed.

Lemma latest_cases (l : list string) :
  get_latest_installed_python_version l = Ok None
  \/ exists d, digits d
       /\ get_latest_installed_python_version l = Ok (Some ("3." ++ d)).
Proof.
  rewrite latest_unfold.
  destruct (filter (re_match version_pattern) l) as [|y ys] eqn:E; [now left|].
  destruct (list_last_filter (re_match version_pattern) l)
    as (pre & u & post & _ & Hu & _ & Hlast); [rewrite E; discriminate|].
  rewrite E in Hlast. rewrite Hlast.
  destruct (version_match_shape _ Hu) as (d1 & d2 & e & -> & Hd1 & _ & _).
  right. exists d1. split; [exact Hd1|].
  now rewrite (major_minor_of_shape d1 (d2 ++ e) (proj2 Hd1)).
Qed.

(** ** More on the greedy match of the assignment *)

(** ** More on the greedy match of the assignment *)

(** X3. The pattern matches at the head of a text exactly when the text
    starts with [requires-python = "<old>"] for an [old] without line
    feed, and the match is greedy: it ends at the last double quote of
    the line, so no double quote follows it before the next line feed. *)
Theorem requires_match_is_greedy (bos : bool) (s : string) (n : nat) :
  match_len requires_pattern bos s = Some n
  <-> exists old y,
        s = requires_line old ++ y /\ no_lf old = true
        /\ count_char DQUOTE (line_head y) = 0
        /\ n = String.length (requires_line old).
Proof.
  rewrite match_len_requires. split.
  - unfold req_match.
    destruct (strip_prefix requires_prefix s) as [u|] eqn:E; [|discriminate].
    apply strip_prefix_app in E. subst s.
    destruct (quote_end u) as [m|] eqn:Eu; [|discriminate].
    destruct (quote_end_spec _ _ Eu) as (x & y & -> & -> & Hx & Hy).
    cbn [option_map]. intros H. injection H as <-.
    exists x, y. repeat split; auto.
    + now rewrite requires_line_eq, !app_assoc_s.
    + now apply quote_end_none_iff.
    + rewrite requires_line_eq, !length_app_s. simpl. lia.
  - intros (old & y & -> & Hold & Hy & ->).
    apply req_match_requires_line; [assumption|]. now apply quote_end_none_iff.
Qed.

(** ** More on the version listing *)

Lemma splitlines_nil_iff (s : string) : splitlines s = [] <-> s = EmptyString.
Proof.
  split; [|now intros ->].
  destruct s as [|a s]; [reflexivity|]. cbn [splitlines].
  destruct (is_linebreak a); [discriminate|].
  destruct (splitlines s); discriminate.
Qed.

Lemma linebreak_is_space (a : ascii) : is_linebreak a = true -> is_space a = true.
Proof.
  destruct a as [[|] [|] [|] [|] [|] [|] [|] [|]]; vm_compute; intros H;
    first [reflexivity | discriminate H].
Qed.

Lemma no_space_no_linebreak (l : string) :
  no_space l = true -> no_linebreak l = true.
Proof.
  apply all_chars_impl. intros a Ha. apply negb_true_iff in Ha.
  apply negb_true_iff. destruct (is_linebreak a) eqn:E; [|reflexivity].
  apply linebreak_is_space in E. congruence.
Qed.

Lemma all_chars_mid (f : ascii -> bool) (x : string) (a : ascii) (y : string) :
  all_chars f (x ++ String a y) = true -> f a = true.
Proof.
  rewrite all_chars_app. cbn [all_chars]. intros H.
  apply andb_true_iff in H as [_ H]. now apply andb_true_iff in H as [H _].
Qed.

Lemma splitlines_no_linebreak (s : string) :
  Forall (fun l => no_linebreak l = true) (splitlines s).
Proof.
  assert (forall m s, String.length s <= m ->
            Forall (fun l => no_linebreak l = true) (splitlines s)) as Hall.
  { induction m as [|m IH]; intros [|a u] Hlen; cbn [String.length] in Hlen;
      try (constructor; fail); try lia.
    cbn [splitlines]. destruct (is_linebreak a) eqn:Ea.
    - constructor; [reflexivity|].
      destruct u as [|b u']; [constructor|].
      destruct (Ascii.eqb a CR && Ascii.eqb b LF); apply IH;
        cbn [String.length] in *; lia.
    - assert (Forall (fun l => no_linebreak l = true) (splitlines u)) as Hu
        by (apply IH; lia).
      destruct (splitlines u) as [|l ls].
      + constructor; [|constructor]. unfold no_linebreak. cbn [all_chars].
        now rewrite Ea.
      + inversion Hu as [|? ? Hl Hls]; subst. constructor; [|assumption].
        unfold no_linebreak in *. cbn [all_chars]. now rewrite Ea, Hl. }
  apply (Hall (String.length s)). lia.
Qed.

Lemma splitlines_app (l rest : string) :
  no_linebreak l = true ->
  splitlines (l ++ String LF rest) = (l :: splitlines rest)%list.
Proof.
  induction l as [|a l IH]; intros H.
  - cbn [append]. destruct rest; reflexivity.
  - unfold no_linebreak in H. cbn [all_chars] in H.
    apply andb_true_iff in H as [Ha Hl]. apply negb_true_iff in Ha.
    cbn [append splitlines]. rewrite Ha. now rewrite (IH Hl).
Qed.

Lemma splitlines_single (l : string) :
  l <> EmptyString -> no_linebreak l = true -> splitlines l = [l].
Proof.
  induction l as [|a l IH]; intros Hne H; [contradiction|].
  unfold no_linebreak in H. cbn [all_chars] in H.
  apply andb_true_iff in H as [Ha Hl]. apply negb_true_iff in Ha.
  cbn [splitlines]. rewrite Ha.
  destruct l as [|b l']; [reflexivity|].
  rewrite IH; [reflexivity | discriminate | exact Hl].
Qed.

Lemma rstrip_all_space (t : string) :
  all_chars is_space t = true -> rstrip t = EmptyString.
Proof.
  induction t as [|a t IH]; intros H; [reflexivity|].
  cbn [all_chars] in H. apply andb_true_iff in H as [Ha Ht].
  cbn [rstrip]. now rewrite (IH Ht), Ha.
Qed.

Lemma rstrip_app_space (s t : string) :
  all_chars is_space t = true -> rstrip (s ++ t) = rstrip s.
Proof.
  intros Ht. induction s as [|a s IH].
  - cbn [append]. now apply rstrip_all_space.
  - cbn [append rstrip]. now rewrite IH.
Qed.

Lemma rstrip_no_space (l : string) : no_space l = true -> rstrip l = l.
Proof.
  induction l as [|a l IH]; intros H; [reflexivity|].
  unfold no_space in H. cbn [all_chars] in H.
  apply andb_true_iff in H as [Ha Hl]. apply negb_true_iff in Ha.
  cbn [rstrip]. rewrite (IH Hl), Ha. now destruct l.
Qed.

Lemma rstrip_app_nonempty (x y : string) :
  rstrip y <> EmptyString -> rstrip (x ++ y) = x ++ rstrip y.
Proof.
  intros Hy. induction x as [|a x IH]; [reflexivity|].
  cbn [append rstrip]. rewrite IH.
  destruct (x ++ rstrip y) eqn:E; [|reflexivity].
  destruct x; [contradiction | discriminate].
Qed.

(** The text of a list of entries, one per line. *)
Lemma rstrip_join (lines : list string) :
  lines <> [] ->
  Forall (fun l => l <> EmptyString /\ no_space l = true) lines ->
  rstrip (str_join nl lines) = str_join nl lines
  /\ str_join nl lines <> EmptyString.
Proof.
  induction lines as [|l ls IH]; intros Hne Hall; [contradiction|].
  inversion Hall as [|? ? [Hl Hs] Hls]; subst.
  destruct ls as [|l2 ls].
  - cbn [str_join]. split; [now apply rstrip_no_space | assumption].
  - destruct (IH ltac:(discriminate) Hls) as [IH1 IH2].
    rewrite str_join_cons by discriminate.
    rewrite <- app_assoc_s.
    rewrite rstrip_app_nonempty by (rewrite IH1; exact IH2).
    rewrite IH1. split; [reflexivity|].
    destruct l; [contradiction | discriminate].
Qed.

Lemma splitlines_join (lines : list string) :
  Forall (fun l => l <> EmptyString /\ no_space l = true) lines ->
  splitlines (str_join nl lines) = lines.
Proof.
  induction lines as [|l ls IH]; intros Hall; [reflexivity|].
  inversion Hall as [|? ? [Hl Hs] Hls]; subst.
  destruct ls as [|l2 ls].
  - cbn [str_join]. apply splitlines_single; [assumption|].
    now apply no_space_no_linebreak.
  - rewrite str_join_cons by discriminate.
    change (nl ++ str_join nl (l2 :: ls)) with (String LF (str_join nl (l2 :: ls))).
    rewrite splitlines_app by now apply no_space_no_linebreak.
    now rewrite (IH Hls).
Qed.

Lemma strip_listing (lines : list string) :
  lines <> [] ->
  Forall (fun l => l <> EmptyString /\ no_space l = true) lines ->
  strip (str_join nl lines ++ nl) = str_join nl lines.
Proof.
  intros Hne Hall. destruct (rstrip_join lines Hne Hall) as [Hr Hnz].
  unfold strip.
  assert (lstrip (str_join nl lines ++ nl) = str_join nl lines ++ nl) as ->.
  { destruct lines as [|l ls]; [contradiction|].
    inversion Hall as [|? ? [Hl Hs] _]; subst.
    destruct l as [|a l]; [contradiction|].
    unfold no_space in Hs. cbn [all_chars] in Hs.
    apply andb_true_iff in Hs as [Ha _]. apply negb_true_iff in Ha.
    destruct ls; cbn [str_join append lstrip]; now rewrite Ha. }
  rewrite rstrip_app_space by reflexivity. exact Hr.
Qed.

(** X4. [get_installed_python_versions] returns the empty list exactly
    when [pyenv] exits non-zero or prints nothing but white space. *)
Theorem installed_versions_empty_iff (w : world) (st : state)
    (returncode : Z) (stdout : string) (versions : list string) :
  exec w pyenv_versions_argv = Exited returncode stdout ->
  fst (get_installed_python_versions w st) = Ok versions ->
  (versions = [] <-> returncode <> 0%Z \/ all_chars is_space stdout = true).
Proof.
  intros Hexec. rewrite get_installed_python_versions_run, Hexec. cbn [fst].
  intros H. injection H as <-.
  destruct (Z.eqb_spec returncode 0) as [->|Hrc].
  - rewrite splitlines_nil_iff, strip_blank. split; [auto|].
    intros [H|H]; [contradiction | exact H].
  - split; auto.
Qed.

Lemma installed_versions_empty_iff_witness :
  @nil string = [] <-> 0%Z <> 0%Z \/ all_chars is_space (" " ++ nl) = true.
Proof.
  apply (installed_versions_empty_iff (sample_world (Exited 0 (" " ++ nl)))
           (initial None) 0%Z (" " ++ nl) []);
    reflexivity.
Defined.

(** X5. No entry of the list [get_installed_python_versions] returns
    holds a line boundary; so an entry of that list that the version
    pattern accepts is exactly [3.<digits>.<digits>], without the final
    line feed the pattern tolerates. *)
Theorem installed_versions_entries (w : world) (st : state)
    (versions : list string) :
  fst (get_installed_python_versions w st) = Ok versions ->
  Forall (fun v => no_linebreak v = true) versions
  /\ (forall v, In v versions -> re_match version_pattern v = true ->
        exists d1 d2, digits d1 /\ digits d2 /\ v = "3." ++ d1 ++ "." ++ d2).
Proof.
  rewrite get_installed_python_versions_run.
  intros H.
  assert (Forall (fun v => no_linebreak v = true) versions) as Hall.
  { destruct (exec w pyenv_versions_argv) as [e|rc|rc out]; try discriminate H.
    cbn [fst] in H. injection H as <-.
    destruct (rc =? 0)%Z; [apply splitlines_no_linebreak | constructor]. }
  split; [exact Hall|].
  intros v Hin Hm.
  destruct (version_match_shape _ Hm) as (d1 & d2 & e & -> & Hd1 & Hd2 & He).
  exists d1, d2. split; [exact Hd1|]. split; [exact Hd2|].
  destruct He as [->| ->]; [now rewrite !app_nil_r_s|].
  rewrite Forall_forall in Hall. specialize (Hall _ Hin).
  unfold no_linebreak in Hall.
  rewrite <- !app_assoc_s in Hall.
  apply all_chars_mid in Hall. discriminate Hall.
Qed.

Lemma installed_versions_entries_witness :
  Forall (fun v => no_linebreak v = true) ["3.9.1"; "3.10.4"]
  /\ (forall v, In v ["3.9.1"; "3.10.4"] -> re_match version_pattern v = true ->
        exists d1 d2, digits d1 /\ digits d2 /\ v = "3." ++ d1 ++ "." ++ d2).
Proof.
  apply (installed_versions_entries
           (sample_world (Exited 0 ("3.9.1" ++ String CR nl ++ "3.10.4" ++ nl)))
           (initial None) ["3.9.1"; "3.10.4"]).
  reflexivity.
Defined.

(** X6. When [pyenv] exits 0 and prints a non-empty list of entries, one
    per line, each entry non-empty and free of white space,
    [get_installed_python_versions] returns that list, in that order. *)
Theorem installed_versions_round_trip (w : world) (st : state)
    (lines : list string) :
  lines <> [] ->
  Forall (fun l => l <> EmptyString /\ no_space l = true) lines ->
  exec w pyenv_versions_argv = Exited 0 (str_join nl lines ++ nl) ->
  get_installed_python_versions w st = (Ok lines, after_run st).
Proof.
  intros Hne Hall Hexec.
  rewrite get_installed_python_versions_run, Hexec. cbn [Z.eqb].
  now rewrite (strip_listing lines Hne Hall), (splitlines_join lines Hall).
Qed.

Lemma installed_versions_round_trip_witness :
  get_installed_python_versions
    (sample_world (Exited 0 (str_join nl ["2.7.18"; "3.6.9"; "system"] ++ nl)))
    (initial None)
  = (Ok ["2.7.18"; "3.6.9"; "system"], after_run (initial None)).
Proof.
  apply (installed_versions_round_trip
           (sample_world (Exited 0 (str_join nl ["2.7.18"; "3.6.9"; "system"] ++ nl)))
           (initial None) ["2.7.18"; "3.6.9"; "system"]).
  - discriminate.
  - repeat constructor; discriminate.
  - reflexivity.
Defined.

(** ** More on the patch *)

Lemma str_split_no_lf (l : string) : no_lf l = true -> str_split LF l = [l].
Proof.
  intros H. rewrite str_split_lines.
  now rewrite (line_head_no_lf _ H), (line_tail_no_lf _ H).
Qed.

Lemma str_split_all_no_lf (s : string) :
  Forall (fun l => no_lf l = true) (str_split LF s).
Proof.
  induction s as [|a s IH]; cbn [str_split].
  - constructor; [reflexivity | constructor].
  - destruct (Ascii.eqb a LF) eqn:Ea.
    + constructor; [reflexivity | exact IH].
    + destruct (str_split LF s) as [|l ls]; [repeat constructor|].
      * unfold no_lf. cbn [all_chars]. unfold not_char. now rewrite Ea.
      * inversion IH as [|? ? Hl Hls]; subst. constructor; [|exact Hls].
        unfold no_lf in *. cbn [all_chars]. unfold not_char at 1. now rewrite Ea, Hl.
Qed.

Lemma str_split_join (ls : list string) :
  ls <> [] -> Forall (fun l => no_lf l = true) ls ->
  str_split LF (str_join nl ls) = ls.
Proof.
  induction ls as [|l ls IH]; intros Hne Hall; [contradiction|].
  inversion Hall as [|? ? Hl Hls]; subst.
  destruct ls as [|l2 ls].
  - cbn [str_join]. now apply str_split_no_lf.
  - rewrite str_join_cons by discriminate.
    change (nl ++ str_join nl (l2 :: ls)) with (String LF (str_join nl (l2 :: ls))).
    rewrite str_split_app by exact Hl.
    now rewrite IH by (discriminate || exact Hls).
Qed.

(** X7. For a version without line feed and without backslash the patch
    keeps the line structure of the file: the new text has as many lines
    as the old one, and each of its lines is the patched line at the same
    position. *)
Theorem patch_preserves_line_structure (python_version c c' : string) :
  no_lf python_version = true ->
  no_backslash python_version = true ->
  updated_content python_version c = Ok c' ->
  str_split LF c' = map (line_sub python_version) (str_split LF c)
  /\ List.length (str_split LF c') = List.length (str_split LF c).
Proof.
  intros Hlf Hbs H.
  assert (str_split LF c' = map (line_sub python_version) (str_split LF c)) as Heq.
  { rewrite (updated_content_lines _ _ _ H). apply str_split_join.
    - intros Hmap. apply map_eq_nil in Hmap. now apply str_split_nonempty in Hmap.
    - pose proof (str_split_all_no_lf c) as Hall.
      induction Hall as [|l ls Hl _ IH]; cbn [map]; constructor; [|exact IH].
      rewrite (line_sub_template python_version l (requires_template python_version))
        by now apply parse_template_literal, no_backslash_requires_line.
      now apply rsub_no_lf. }
  split; [exact Heq|]. rewrite Heq. apply length_map.
Qed.

Lemma patch_preserves_line_structure_witness :
  str_split LF ("a" ++ nl ++ requires_line "3.8" ++ " # x" ++ nl)
  = map (line_sub "3.8") (str_split LF ("a" ++ nl ++ requires_line "old" ++ " # x" ++ nl))
  /\ List.length (str_split LF ("a" ++ nl ++ requires_line "3.8" ++ " # x" ++ nl))
     = List.length (str_split LF ("a" ++ nl ++ requires_line "old" ++ " # x" ++ nl)).
Proof.
  apply (patch_preserves_line_structure "3.8"
           ("a" ++ nl ++ requires_line "old" ++ " # x" ++ nl)
           ("a" ++ nl ++ requires_line "3.8" ++ " # x" ++ nl));
    reflexivity.
Defined.

(** X8. When the pattern occurs nowhere in the text read from
    [pyproject.toml], as it does when it occurs nowhere in the file, and
    the version has no backslash, [update_pyproject_toml] succeeds and
    writes the file back with the text it read; a file without carriage
    return is written back as it was. *)
Theorem patch_without_occurrence (w : world) (python_version c : string)
    (st : state) :
  no_backslash python_version = true ->
  pyproject_toml st = Some c ->
  pyproject_writable w = true ->
  (re_search requires_pattern c = false ->
   re_search requires_pattern (universal_newlines c) = false)
  /\ (re_search requires_pattern (universal_newlines c) = false ->
      update_pyproject_toml w python_version st
      = (Ok tt,
         {| pyproject_toml := Some (universal_newlines c);
            trace := (trace st ++ [ERead pyproject_path;
                                   EWrite pyproject_path
                                     (universal_newlines c)])%list |}))
  /\ (re_search requires_pattern c = false -> no_cr c = true ->
      update_pyproject_toml w python_version st
      = (Ok tt,
         {| pyproject_toml := Some c;
            trace := (trace st ++ [ERead pyproject_path;
                                   EWrite pyproject_path c])%list |})).
Proof.
  intros Hbs Hc Hw.
  assert (re_search requires_pattern (universal_newlines c) = false ->
          update_pyproject_toml w python_version st
          = (Ok tt,
             {| pyproject_toml := Some (universal_newlines c);
                trace := (trace st ++ [ERead pyproject_path;
                                       EWrite pyproject_path
                                         (universal_newlines c)])%list |})) as Hrun.
  { intros Hs.
    rewrite update_pyproject_toml_run, Hc, (updated_content_literal _ _ Hbs), Hw.
    now rewrite (rsub_no_match _ _ Hs). }
  split; [apply re_search_universal|]. split; [exact Hrun|].
  intros Hs Hcr. pose proof (Hrun (re_search_universal _ Hs)) as H.
  now rewrite (universal_newlines_id c Hcr) in H.
Qed.

Lemma patch_without_occurrence_witness :
  update_pyproject_toml (sample_world (Exited 0 EmptyString)) ">=3.8"
    (initial (Some ("[project]" ++ String CR nl ++ "requires-python = 3" ++ nl)))
  = (Ok tt,
     {| pyproject_toml := Some ("[project]" ++ nl ++ "requires-python = 3" ++ nl);
        trace := ([] ++ [ERead pyproject_path;
                         EWrite pyproject_path
                           ("[project]" ++ nl ++ "requires-python = 3" ++ nl)])%list |}).
Proof.
  exact (proj1 (proj2 (patch_without_occurrence (sample_world (Exited 0 EmptyString))
                         ">=3.8"
                         ("[project]" ++ String CR nl ++ "requires-python = 3" ++ nl)
                         (initial (Some ("[project]" ++ String CR nl
                                         ++ "requires-python = 3" ++ nl)))
                         eq_refl eq_refl eq_refl))
           eq_refl).
Defined.

(** ** More on the run of [main] *)

Lemma digits_version_safe (d : string) :
  digits d ->
  no_lf (">=3." ++ d) = true /\ no_backslash (">=3." ++ d) = true.
Proof.
  intros [_ Hd]. unfold no_lf, no_backslash. rewrite !all_chars_app. split.
  - rewrite (all_chars_impl is_digit (not_char LF) d); [reflexivity | | exact Hd].
    intros a Ha. unfold not_char.
    destruct (Ascii.eqb_spec a LF) as [->|]; [discriminate Ha | reflexivity].
  - rewrite (all_chars_impl is_digit (not_char BACKSLASH) d); [reflexivity | | exact Hd].
    intros a Ha. unfold not_char.
    destruct (Ascii.eqb_spec a BACKSLASH) as [->|]; [discriminate Ha | reflexivity].
Qed.

Lemma digits_version_no_cr (d : string) :
  digits d -> no_cr (">=3." ++ d) = true.
Proof.
  intros [_ Hd]. unfold no_cr. rewrite !all_chars_app.
  rewrite (all_chars_impl is_digit (fun a => negb (Ascii.eqb a CR)) d);
    [reflexivity | | exact Hd].
  intros a Ha. destruct (Ascii.eqb_spec a CR) as [->|]; [discriminate Ha | reflexivity].
Qed.

Lemma update_file (w : world) (v : string) (st : state) :
  no_backslash v = true ->
  pyproject_toml (snd (update_pyproject_toml w v st))
  = patch_file w v (pyproject_toml st).
Proof.
  intros Hbs. rewrite update_pyproject_toml_run. unfold patch_file.
  destruct (pyproject_toml st) as [c|] eqn:Ec; [|cbn [snd]; exact Ec].
  rewrite (updated_content_literal _ _ Hbs).
  destruct (pyproject_writable w); cbn [snd]; [reflexivity|].
  unfold after_read. cbn [pyproject_toml]. exact Ec.
Qed.

Lemma patch_file_idem (w : world) (v : string) (file : option string) :
  no_lf v = true -> no_cr v = true ->
  patch_file w v (patch_file w v file) = patch_file w v file.
Proof.
  intros Hlf Hcr. unfold patch_file. destruct file as [c|]; [|reflexivity].
  destruct (pyproject_writable w) eqn:Ew; rewrite ?Ew; [|reflexivity].
  rewrite (universal_newlines_rsub _ _ Hcr).
  now rewrite (rsub_idem_gen v _ (or_introl Hlf)).
Qed.

(** The print, the patch and the return of the version, as one step. *)
Lemma print_update_ret (w : world) (msg v : string) (st : state) :
  no_backslash v = true ->
  (print msg ;; update_pyproject_toml w v ;; ret v) st
  = match pyproject_toml st with
    | None =>
        (Raise (read_error w),
         {| pyproject_toml := None;
            trace := (trace st ++ [EPrint msg])%list |})
    | Some c =>
        if pyproject_writable w then
          (Ok v,
           {| pyproject_toml := Some (rsub (requires_template v)
                                        (universal_newlines c));
              trace := (trace st ++ [EPrint msg; ERead pyproject_path;
                                     EWrite pyproject_path
                                       (rsub (requires_template v)
                                          (universal_newlines c))])%list |})
        else
          (Raise PermissionError,
           {| pyproject_toml := Some c;
              trace := (trace st ++ [EPrint msg; ERead pyproject_path])%list |})
    end.
Proof.
  intros Hbs. unfold bind at 1. unfold print, emit. unfold bind.
  rewrite update_pyproject_toml_run. cbn [pyproject_toml trace].
  destruct (pyproject_toml st) as [c|]; [|reflexivity].
  rewrite (updated_content_literal _ _ Hbs).
  destruct (pyproject_writable w); unfold ret, after_read; cbn [pyproject_toml trace];
    now rewrite <- app_assoc.
Qed.

(** The three ways the resolution of the minimum version can go. *)
Lemma resolve_cases (w : world) (placeholder : string) :
  (strip placeholder <> EmptyString
   /\ forall st, resolve_min_python w placeholder st = (Ok placeholder, st))
  \/ (strip placeholder = EmptyString
      /\ (exists e,
            (exec w pyenv_versions_argv = LaunchError e
             \/ (e = UnicodeDecodeError
                 /\ exists returncode,
                      exec w pyenv_versions_argv = Undecodable returncode))
            /\ forall st, resolve_min_python w placeholder st
                          = (Raise e, after_run st)))
  \/ (strip placeholder = EmptyString
      /\ (exists returncode stdout,
            exec w pyenv_versions_argv = Exited returncode stdout)
      /\ exists d msg,
           digits d
           /\ forall st,
                resolve_min_python w placeholder st
                = (print msg ;;
                   update_pyproject_toml w (">=3." ++ d) ;;
                   ret (">=3." ++ d)) (after_run st)).
Proof.
  destruct (strip placeholder) as [|a s] eqn:Eblank.
  - right. destruct (exec w pyenv_versions_argv) as [e|rc|rc out] eqn:Eexec.
    + left. split; [reflexivity|]. exists e. split; [now left|]. intros st.
      unfold resolve_min_python. rewrite Eblank. cbn [truthy negb].
      unfold bind at 1. now rewrite get_installed_python_versions_run, Eexec.
    + left. split; [reflexivity|]. exists UnicodeDecodeError.
      split; [right; split; [reflexivity | now exists rc]|]. intros st.
      unfold resolve_min_python. rewrite Eblank. cbn [truthy negb].
      unfold bind at 1. now rewrite get_installed_python_versions_run, Eexec.
    + right. split; [reflexivity|]. split; [now exists rc, out|].
      set (l := if (rc =? 0)%Z then splitlines (strip out) else []).
      assert (forall st, get_installed_python_versions w st = (Ok l, after_run st))
        as Hrun.
      { intros st. now rewrite get_installed_python_versions_run, Eexec. }
      destruct (latest_cases l) as [Hl | (d & Hd & Hl)].
      * exists "8", warning_line. split; [split; [discriminate | reflexivity]|].
        intros st. rewrite (resolve_blank _ _ _ _ _ Eblank (Hrun st)).
        unfold bind at 1. unfold lift. now rewrite Hl.
      * exists d, ("Using latest installed Python version: " ++ ">=3." ++ d).
        split; [exact Hd|].
        intros st. rewrite (resolve_blank _ _ _ _ _ Eblank (Hrun st)).
        unfold bind at 1. unfold lift. now rewrite Hl.
  - left. split; [discriminate|]. intros st.
    unfold resolve_min_python. now rewrite Eblank.
Qed.

Lemma resolve_file (w : world) (placeholder : string) :
  (forall st, pyproject_toml (snd (resolve_min_python w placeholder st))
              = pyproject_toml st)
  \/ exists d,
       digits d
       /\ forall st, pyproject_toml (snd (resolve_min_python w placeholder st))
                     = patch_file w (">=3." ++ d) (pyproject_toml st).
Proof.
  destruct (resolve_cases w placeholder)
    as [[_ H] | [(_ & e & _ & H) | (_ & _ & d & msg & Hd & H)]].
  - left. intros st. now rewrite H.
  - left. intros st. now rewrite H.
  - right. exists d. split; [exact Hd|]. intros st. rewrite H.
    rewrite print_update_ret by apply (digits_version_safe d Hd).
    unfold patch_file, after_run. cbn [pyproject_toml].
    destruct (pyproject_toml st); [|reflexivity].
    now destruct (pyproject_writable w).
Qed.

Lemma resolve_trace (w : world) (placeholder : string) (st : state) :
  exists pre,
    trace (snd (resolve_min_python w placeholder st)) = (trace st ++ pre)%list
    /\ forallb (fun e => negb (is_shell e)) pre = true.
Proof.
  destruct (resolve_cases w placeholder)
    as [[_ H] | [(_ & e & _ & H) | (_ & _ & d & msg & Hd & H)]]; rewrite H.
  - exists []. now rewrite app_nil_r.
  - exists [ERun pyenv_versions_argv]. split; reflexivity.
  - rewrite print_update_ret by apply (digits_version_safe d Hd).
    unfold after_run. cbn [pyproject_toml trace].
    destruct (pyproject_toml st) as [c|].
    + destruct (pyproject_writable w); cbn [snd trace]; rewrite <- app_assoc;
        eexists; split; reflexivity.
    + cbn [snd trace]. rewrite <- app_assoc. eexists; split; reflexivity.
Qed.

(** With a blank placeholder a version the resolution returns is
    [>=3.] and digits. *)
Lemma resolve_blank_version (w : world) (placeholder v : string) (st st' : state) :
  strip placeholder = EmptyString ->
  resolve_min_python w placeholder st = (Ok v, st') ->
  exists d, digits d /\ v = ">=3." ++ d.
Proof.
  intros Hblank Hres.
  destruct (resolve_cases w placeholder)
    as [[Hn _] | [(_ & e & _ & H) | (_ & _ & d & msg & Hd & H)]].
  - contradiction.
  - rewrite H in Hres. discriminate.
  - exists d. split; [exact Hd|]. rewrite H in Hres.
    rewrite print_update_ret in Hres by apply (digits_version_safe d Hd).
    destruct (pyproject_toml (after_run st)); [|discriminate].
    destruct (pyproject_writable w); [|discriminate].
    now injection Hres as <- _.
Qed.

(** What [main] adds to the trace once the version is resolved: the
    [pdm use] command line, then prints. *)
Lemma main_trace_after (w : world) (placeholder v : string) (st st1 : state) :
  resolve_min_python w placeholder st = (Ok v, st1) ->
  exists rest,
    trace (snd (main w placeholder st))
    = (trace st1 ++ EShell (pdm_use_cmd v) :: rest)%list
    /\ forallb is_print rest = true.
Proof.
  intros Hres. unfold main. unfold bind at 1. rewrite Hres.
  unfold bind at 1. rewrite shell_check_run.
  destruct (shell w (pdm_use_cmd v)) as [e|rc|rc out].
  - exists []. split; reflexivity.
  - destruct (rc =? 0)%Z; [|exists []; split; reflexivity].
    eexists [_; _]. unfold ret, bind, print, emit. cbn [snd trace pyproject_toml].
    rewrite <- !app_assoc. split; reflexivity.
  - destruct (rc =? 0)%Z; [|exists []; split; reflexivity].
    eexists [_; _]. unfold ret, bind, print, emit. cbn [snd trace pyproject_toml].
    rewrite <- !app_assoc. split; reflexivity.
Qed.

Lemma main_keeps_file_quiet (w : world) (placeholder : string) (st : state) :
  (forall cmd file, shell_effect w cmd file = file) ->
  pyproject_toml (snd (main w placeholder st))
  = pyproject_toml (snd (resolve_min_python w placeholder st)).
Proof.
  intros Hq. rewrite main_file.
  destruct (resolve_min_python w placeholder st) as [[v|e] st1]; [|reflexivity].
  cbn [snd]. destruct (shell w (pdm_use_cmd v)); [reflexivity | apply Hq..].
Qed.

(** X9. A placeholder text whose literal has a value of white space only
    (blanks, or escapes such as [\t]) is a placeholder that is not set:
    the script runs as it does with the empty placeholder. *)
Theorem whitespace_placeholder_is_unset (w : world)
    (placeholder_text min_python : string) (st : state) :
  py_literal placeholder_text = LitValue min_python ->
  all_chars is_space min_python = true ->
  hook w placeholder_text = Some (main w min_python)
  /\ hook w EmptyString = Some (main w EmptyString)
  /\ resolve_min_python w min_python st = resolve_min_python w EmptyString st
  /\ main w min_python st = main w EmptyString st.
Proof.
  intros Hlit H. apply strip_blank in H.
  assert (forall s, resolve_min_python w min_python s
                    = resolve_min_python w EmptyString s) as Hres.
  { intros s. unfold resolve_min_python. now rewrite H. }
  split; [unfold hook; now rewrite Hlit|]. split; [reflexivity|].
  split; [apply Hres|]. unfold main. unfold bind at 1 4. now rewrite Hres.
Qed.

Lemma whitespace_placeholder_is_unset_witness :
  hook (sample_world (Exited 0 ("3.9.1" ++ nl))) " \t"
  = Some (main (sample_world (Exited 0 ("3.9.1" ++ nl)))
            (String " " (String (chr 9) EmptyString)))
  /\ main (sample_world (Exited 0 ("3.9.1" ++ nl)))
       (String " " (String (chr 9) EmptyString)) (initial (Some sample_toml))
     = main (sample_world (Exited 0 ("3.9.1" ++ nl))) EmptyString
         (initial (Some sample_toml)).
Proof.
  pose proof (whitespace_placeholder_is_unset
                (sample_world (Exited 0 ("3.9.1" ++ nl))) " \t"
                (String " " (String (chr 9) EmptyString))
                (initial (Some sample_toml)) eq_refl eq_refl) as (H1 & _ & _ & H2).
  split; [exact H1 | exact H2].
Defined.

(** X10. With a blank placeholder, a minimum version the resolution
    returns is always [>=3.] followed by digits, the discovered
    major.minor or the default [>=3.8], and the command line [main] then
    hands to the shell is the text
    [pdm use $(pyenv prefix >=3.<digits>)/bin/python], the constraint
    spliced in as it is. *)
Theorem resolved_version_shape (w : world) (placeholder v : string)
    (st st' : state) :
  strip placeholder = EmptyString ->
  resolve_min_python w placeholder st = (Ok v, st') ->
  exists d,
    digits d /\ v = ">=3." ++ d
    /\ exists rest,
         trace (snd (main w placeholder st))
         = (trace st'
            ++ EShell ("pdm use $(pyenv prefix >=3." ++ d ++ ")/bin/python")
               :: rest)%list
         /\ forallb is_print rest = true.
Proof.
  intros Hblank Hres.
  destruct (resolve_blank_version _ _ _ _ _ Hblank Hres) as (d & Hd & ->).
  exists d. split; [exact Hd|]. split; [reflexivity|].
  exact (main_trace_after _ _ _ _ _ Hres).
Qed.

Lemma resolved_version_shape_witness :
  exists d,
    digits d /\ ">=3.9" = ">=3." ++ d
    /\ exists rest,
         trace (snd (main (sample_world (Exited 0 ("3.9.1" ++ nl))) EmptyString
                       (initial (Some sample_toml))))
         = (trace (snd (resolve_min_python (sample_world (Exited 0 ("3.9.1" ++ nl)))
                          EmptyString (initial (Some sample_toml))))
            ++ EShell ("pdm use $(pyenv prefix >=3." ++ d ++ ")/bin/python")
               :: rest)%list
         /\ forallb is_print rest = true.
Proof.
  exact (resolved_version_shape (sample_world (Exited 0 ("3.9.1" ++ nl))) EmptyString
           ">=3.9" (initial (Some sample_toml))
           (snd (resolve_min_python (sample_world (Exited 0 ("3.9.1" ++ nl)))
                   EmptyString (initial (Some sample_toml))))
           eq_refl eq_refl).
Defined.




(** X13. In a world where the [pdm use] command line leaves
    [pyproject.toml] alone, running [main] a second time leaves the file
    as the first run left it. *)
Theorem main_twice_same_file (w : world) (placeholder : string) (st : state) :
  (forall cmd file, shell_effect w cmd file = file) ->
  pyproject_toml (snd (main w placeholder (snd (main w placeholder st))))
  = pyproject_toml (snd (main w placeholder st)).
Proof.
  intros Hq.
  rewrite (main_keeps_file_quiet w placeholder (snd (main w placeholder st)) Hq).
  destruct (resolve_file w placeholder) as [H | (d & Hd & H)].
  - now rewrite H.
  - rewrite H, (main_keeps_file_quiet _ _ _ Hq), H.
    apply patch_file_idem;
      [apply (digits_version_safe d Hd) | apply (digits_version_no_cr d Hd)].
Qed.

Lemma main_twice_same_file_witness :
  pyproject_toml
    (snd (main (sample_world (Exited 0 ("3.9.1" ++ nl))) EmptyString
            (snd (main (sample_world (Exited 0 ("3.9.1" ++ nl))) EmptyString
                    (initial (Some sample_toml))))))
  = pyproject_toml
      (snd (main (sample_world (Exited 0 ("3.9.1" ++ nl))) EmptyString
              (initial (Some sample_toml)))).
Proof.
  exact (main_twice_same_file (sample_world (Exited 0 ("3.9.1" ++ nl))) EmptyString
           (initial (Some sample_toml)) (fun _ _ => eq_refl)).
Defined.

(** X14. [pdm use] is the last command [main] runs and it runs at most
    once: what [main] adds to the trace is a part without shell command,
    from the resolution of the version, and then, only when the
    resolution has returned a version, the [pdm use] command for that
    version followed by prints; when the resolution raises, [main] ends
    with the same exception and no shell command is run. *)
Theorem main_runs_pdm_use_last (w : world) (placeholder : string) (st : state) :
  exists pre post,
    trace (snd (main w placeholder st)) = (trace st ++ pre ++ post)%list
    /\ forallb (fun e => negb (is_shell e)) pre = true
    /\ match fst (resolve_min_python w placeholder st) with
       | Raise e => post = [] /\ fst (main w placeholder st) = Raise e
       | Ok v =>
           exists rest,
             post = EShell (pdm_use_cmd v) :: rest
             /\ forallb is_print rest = true
       end.
Proof.
  destruct (resolve_trace w placeholder st) as (pre & Hpre & Hns).
  exists pre.
  destruct (resolve_min_python w placeholder st) as [[v|e] st1] eqn:Eres;
    cbn [fst snd] in *.
  - destruct (main_trace_after _ _ _ _ _ Eres) as (rest & Ht & Hp).
    exists (EShell (pdm_use_cmd v) :: rest). rewrite Ht, Hpre.
    split; [now rewrite <- app_assoc|]. split; [exact Hns|].
    now exists rest.
  - exists []. rewrite app_nil_r, (main_raises_with_resolve _ _ _ _ _ Eres).
    repeat split; auto.
Qed.

Lemma latest_of_last_match (pre post : list string) (d1 d2 : string) :
  digits d1 -> digits d2 ->
  (forall x, In x post -> re_match version_pattern x = false) ->
  get_latest_installed_python_version (pre ++ ("3." ++ d1 ++ "." ++ d2) :: post)
  = Ok (Some ("3." ++ d1)).
Proof.
  intros Hd1 Hd2 Hpost. rewrite latest_unfold, filter_app. cbn [filter].
  pose proof (version_shape_matches d1 d2 EmptyString Hd1 Hd2 (or_introl eq_refl))
    as Hm.
  rewrite app_nil_r_s in Hm. rewrite Hm, (filter_none _ _ Hpost).
  destruct (filter (re_match version_pattern) pre
            ++ [("3." ++ d1 ++ "." ++ d2)%string])%list
    eqn:E; [now destruct (filter (re_match version_pattern) pre)|].
  rewrite <- E, list_last_app. cbn [list_last].
  now rewrite (major_minor_of_shape d1 d2 (proj2 Hd1)).
Qed.

(** X15. End to end, with a blank placeholder: when [pyenv] exits 0 and
    prints its entries one per line, each non-empty and free of white
    space, and [3.<d1>.<d2>] is the last printed entry the version
    pattern accepts, the resolution returns [>=3.<d1>] and
    [pyproject.toml], when it exists and can be written, is patched for
    that constraint. *)
Theorem resolve_selects_last_listed (w : world) (placeholder : string)
    (st : state) (pre post : list string) (d1 d2 c : string) :
  strip placeholder = EmptyString ->
  digits d1 -> digits d2 ->
  Forall (fun l => l <> EmptyString /\ no_space l = true)
    (pre ++ ("3." ++ d1 ++ "." ++ d2) :: post) ->
  (forall x, In x post -> re_match version_pattern x = false) ->
  exec w pyenv_versions_argv
  = Exited 0 (str_join nl (pre ++ ("3." ++ d1 ++ "." ++ d2) :: post) ++ nl) ->
  pyproject_toml st = Some c ->
  pyproject_writable w = true ->
  resolve_min_python w placeholder st
  = (Ok (">=3." ++ d1),
     {| pyproject_toml := Some (rsub (requires_template (">=3." ++ d1))
                                  (universal_newlines c));
        trace := (trace st
                  ++ [ERun pyenv_versions_argv;
                      EPrint ("Using latest installed Python version: >=3." ++ d1);
                      ERead pyproject_path;
                      EWrite pyproject_path
                        (rsub (requires_template (">=3." ++ d1))
                           (universal_newlines c))])%list |}).
Proof.
  intros Hblank Hd1 Hd2 Hall Hpost Hexec Hc Hw.
  assert (get_installed_python_versions w st
          = (Ok (pre ++ ("3." ++ d1 ++ "." ++ d2)%string :: post)%list,
             after_run st)) as Hrun.
  { rewrite get_installed_python_versions_run, Hexec. cbn [Z.eqb].
    rewrite strip_listing by first [exact Hall | now destruct pre].
    now rewrite (splitlines_join _ Hall). }
  rewrite (resolve_blank _ _ _ _ _ Hblank Hrun).
  unfold bind at 1. unfold lift.
  rewrite (latest_of_last_match pre post d1 d2 Hd1 Hd2 Hpost).
  etransitivity.
  { exact (resolve_with_version w (">=3." ++ d1) c (after_run st)
             (proj2 (digits_version_safe d1 Hd1)) Hc Hw). }
  unfold after_run. cbn [trace]. now rewrite <- app_assoc.
Qed.

Lemma resolve_selects_last_listed_witness :
  resolve_min_python
    (sample_world (Exited 0 (str_join nl ["3.11.0"; "3.9.1"; "system"] ++ nl)))
    EmptyString (initial (Some sample_toml))
  = (Ok (">=3." ++ "9"),
     {| pyproject_toml := Some (rsub (requires_template (">=3." ++ "9"))
                                  (universal_newlines sample_toml));
        trace := (trace (initial (Some sample_toml))
                  ++ [ERun pyenv_versions_argv;
                      EPrint ("Using latest installed Python version: >=3." ++ "9");
                      ERead pyproject_path;
                      EWrite pyproject_path
                        (rsub (requires_template (">=3." ++ "9"))
                           (universal_newlines sample_toml))])%list |}).
Proof.
  apply (resolve_selects_last_listed
           (sample_world (Exited 0 (str_join nl ["3.11.0"; "3.9.1"; "system"] ++ nl)))
           EmptyString (initial (Some sample_toml)) ["3.11.0"] ["system"] "9" "1"
           sample_toml).
  - reflexivity.
  - split; [discriminate | reflexivity].
  - split; [discriminate | reflexivity].
  - repeat constructor; discriminate.
  - intros x [<-|[]]. reflexivity.
  - reflexivity.
  - reflexivity.
  - reflexivity.
Defined.
